(** * Driftprint Vault XVII-B: the harmonic qubit resonance pipeline

    A shallow embedding of [scripts/harmonic_qubit_resonance.py]:
    signal synthesis ([compute_resonance_amplitude],
    [simulate_harmonic_qubit]), the coherence summary
    ([compute_coherence_metrics]) and the bin-limited direct transform
    ([generate_fft_spectrum]); and of [scripts/generate_fft_audio.py]:
    the audio samples ([generate_resonance_audio]) and the frames
    [save_wav_file] hands to the [wave] writer.

    The Python code computes on [float] and [int].  The embedding is
    written once, over an interface [PyFloat] of the float operations the
    script uses, and is read at two carriers:

    - [R_float]: the real numbers, every operation exact.  The analytic
      statements (closed forms, non-strict bounds, monotonicity) are
      proved here; they are the values of the code up to the rounding of
      binary64.
    - [b64_float]: IEEE binary64 on Rocq's primitive floats, the
      arithmetic CPython performs.  [math.sin], [math.cos], [math.exp]
      and [**] are platform libm calls and are taken as parameters
      ([Libm]).  What depends on the rounding itself is stated here:
      how many samples a call produces, which calls raise, and the
      concrete runs.

    Exceptions: [/] raises [ZeroDivisionError] on a zero divisor, [int()]
    raises on nan and infinities, [max()] raises on an empty sequence.
    The range errors of libm are outside the model, its functions are
    total: [math.exp] and [x ** 2] raise [OverflowError] when the result
    overflows, [math.sin] and [math.cos] raise [ValueError] on an
    infinity.  Ints are converted with [of_int]; where the script
    converts an argument that is an int ([sample_rate] of
    [generate_resonance_audio]) the [OverflowError] of an int beyond
    the range of float is modelled ([PyIntFloat]); the loop indices and
    lengths, converted elsewhere, stay within that range.  Memory is not
    bounded: a list of any length can be built. *)

From Stdlib Require Import String.
From Stdlib Require Import PrimFloat FloatOps SpecFloat FloatAxioms.
From Stdlib Require Import ZArith List Bool Lia.
From Stdlib Require Import Reals Lra.
Import ListNotations.

Set Implicit Arguments.

(** ** Exceptions as an error monad *)

Inductive PyError : Type :=
| ZeroDivisionError
| ValueError
| OverflowError.

Inductive result (A : Type) : Type :=
| Ok (a : A)
| Raise (e : PyError).

Arguments Ok {A} a.
Arguments Raise {A} e.

Definition bind {A B : Type} (c : result A) (k : A -> result B) : result B :=
  match c with
  | Ok a => k a
  | Raise e => Raise e
  end.

Declare Scope py_scope.
Delimit Scope py_scope with py.
Notation "x <- c ;; k" := (bind c (fun x => k))
  (at level 61, c at next level, right associativity) : py_scope.
Notation "' p <- c ;; k" := (bind c (fun x => let p := x in k))
  (at level 61, p pattern, c at next level, right associativity) : py_scope.
Open Scope py_scope.

(** A list comprehension or [for] loop whose body may raise: elements are
    visited left to right and the first exception escapes. *)
Fixpoint mapM {A B : Type} (f : A -> result B) (l : list A) : result (list B) :=
  match l with
  | [] => Ok []
  | a :: l' =>
      b <- f a ;;
      bs <- mapM f l' ;;
      Ok (b :: bs)
  end.

(** A [for] loop that updates an accumulator. *)
Fixpoint foldM {A S : Type} (f : S -> A -> result S) (l : list A) (s : S)
  : result S :=
  match l with
  | [] => Ok s
  | a :: l' =>
      s' <- f s a ;;
      foldM f l' s'
  end.

(** [range(lo, hi)]: empty as soon as [hi <= lo]. *)
Definition py_range (lo hi : Z) : list Z :=
  map (fun i => (lo + Z.of_nat i)%Z) (seq 0 (Z.to_nat (hi - lo))).

(** [enumerate(l)]. *)
Definition enumerate {A : Type} (l : list A) : list (Z * A) :=
  combine (py_range 0 (Z.of_nat (length l))) l.

(** [len(l)] as a Python int. *)
Definition len {A : Type} (l : list A) : Z := Z.of_nat (length l).

(** [l[:k]] and [l[-k:]] for [1 <= k <= len(l)], the only way the script
    slices. *)
Definition slice_prefix {A : Type} (k : Z) (l : list A) : list A :=
  firstn (Z.to_nat k) l.

Definition slice_suffix {A : Type} (k : Z) (l : list A) : list A :=
  skipn (length l - Z.to_nat k) l.

(** ** The float operations of the script *)

Class PyFloat (F : Type) : Type := {
  of_int : Z -> F;                 (* an int operand coerced to float *)
  fadd : F -> F -> F;
  fmul : F -> F -> F;
  fdiv : F -> F -> F;              (* the quotient, divisor non-zero *)
  fneg : F -> F;
  fabs : F -> F;
  is_zero : F -> bool;             (* x == 0, the test [/] makes *)
  fgtb : F -> F -> bool;           (* x > y *)
  to_int : F -> result Z;          (* int(x): truncation toward zero *)
  py_round : F -> Z -> F;          (* round(x, ndigits) *)
  fpi : F;                         (* math.pi *)
  fsin : F -> F;                   (* math.sin *)
  fcos : F -> F;                   (* math.cos *)
  fexp : F -> F;                   (* math.exp *)
  fsqrt : F -> F;                  (* math.sqrt *)
  fsqr : F -> F                    (* x ** 2 *)
}.

(** Where the script hands an int argument to float arithmetic: an int
    operand of a float product is converted, with [OverflowError] when
    it is beyond the range of float, and [a / b] on two ints is the
    exact quotient rounded once, with [OverflowError] when the quotient
    is beyond that range. *)
Class PyIntFloat (F : Type) : Type := {
  converts : Z -> bool;            (* float(z) is in range *)
  true_quotient : Z -> Z -> F;     (* a / b, b non-zero *)
  quotient_fits : Z -> Z -> bool   (* a / b is in range *)
}.

Section Pipeline.

Context {F : Type} {ops : PyFloat F}.

(** [x / y] *)
Definition py_div (x y : F) : result F :=
  if is_zero y then Raise ZeroDivisionError else Ok (fdiv x y).

(** A decimal literal [m / 10^k], e.g. [0.01]: the float nearest to it. *)
Definition lit (m : Z) (k : nat) : F := fdiv (of_int m) (of_int (10 ^ Z.of_nat k)).

(** [sum(l)]: starts from the int 0 and adds from the left.  (CPython
    3.12 and later add floats with a compensated sum, which can differ
    in the last bit; in exact arithmetic the two agree, and no binary64
    statement below depends on that bit.) *)
Definition py_sum (l : list F) : F := fold_left fadd l (of_int 0).

(** [max(l)]: keeps the first maximal element; [ValueError] on empty. *)
Definition py_max (l : list F) : result F :=
  match l with
  | [] => Raise ValueError
  | x :: l' => Ok (fold_left (fun m y => if fgtb y m then y else m) l' x)
  end.

(** *** Records for the dictionaries the script builds *)

Record DataPoint : Type := {
  time : F;
  amplitude : F
}.

Record Parameters : Type := {
  base_frequency_hz : F;
  harmonics_count : Z;
  duration_seconds : F;
  sample_rate_hz : F
}.

Record Simulation : Type := {
  simulation_type : string;
  parameters : Parameters;
  data_points : Z;
  resonance_data : list DataPoint
}.

Record CoherenceMetrics : Type := {
  total_duration_s : F;
  initial_peak_amplitude : F;
  final_avg_amplitude : F;
  coherence_retention : F;
  sample_count : Z
}.

Record SpectrumBin : Type := {
  frequency_hz : F;
  magnitude : F
}.

Record Spectrum : Type := {
  spectrum_type : string;
  frequency_resolution_hz : F;
  bins : Z;
  spectrum_data : list SpectrumBin
}.

(** *** compute_resonance_amplitude *)

(** The default of the [damping] argument, [0.01]. *)
Definition default_damping : F := lit 1 2.

Definition compute_resonance_amplitude (frequency time damping : F) : F :=
  let phase := fmul (fmul (fmul (of_int 2) fpi) frequency) time in
  let decay := fexp (fmul (fneg damping) time) in
  let amplitude := fmul decay (fsin phase) in
  amplitude.

(** *** simulate_harmonic_qubit *)

(** [sum(1.0 / h for h in range(1, harmonics + 1))] *)
Definition weight_sum (harmonics : Z) : result F :=
  ws <- mapM (fun h => py_div (of_int 1) (of_int h)) (py_range 1 (harmonics + 1)) ;;
  Ok (py_sum ws).

(** The inner [for h in range(1, harmonics + 1)] loop at time [t]. *)
Definition harmonic_total (base_frequency : F) (harmonics : Z) (t : F)
  : result F :=
  foldM (fun total_amplitude h =>
           let freq := fmul base_frequency (of_int h) in
           weight <- py_div (of_int 1) (of_int h) ;;
           Ok (fadd total_amplitude
                 (fmul weight (compute_resonance_amplitude freq t default_damping))))
        (py_range 1 (harmonics + 1)) (of_int 0).

(** The body of [for t in time_points]. *)
Definition resonance_point (base_frequency : F) (harmonics : Z) (t : F)
  : result DataPoint :=
  total_amplitude <- harmonic_total base_frequency harmonics t ;;
  norm <- weight_sum harmonics ;;
  total_amplitude <- py_div total_amplitude norm ;;
  Ok {| time := py_round t 4; amplitude := py_round total_amplitude 6 |}.

Definition simulate_harmonic_qubit
  (base_frequency : F) (harmonics : Z) (duration sample_rate : F)
  : result Simulation :=
  num_samples <- to_int (fmul duration sample_rate) ;;
  time_points <- mapM (fun t => py_div (of_int t) sample_rate)
                      (py_range 0 num_samples) ;;
  resonance_data <- mapM (resonance_point base_frequency harmonics) time_points ;;
  Ok {| simulation_type := "harmonic_qubit_resonance"%string;
        parameters := {| base_frequency_hz := base_frequency;
                         harmonics_count := harmonics;
                         duration_seconds := duration;
                         sample_rate_hz := sample_rate |};
        data_points := len resonance_data;
        resonance_data := resonance_data |}.

(** *** compute_coherence_metrics *)

Definition compute_coherence_metrics (resonance_data : list DataPoint)
  : result CoherenceMetrics :=
  let amplitudes := map amplitude resonance_data in
  let times := map time resonance_data in
  match amplitudes with
  | [] =>
      Ok {| total_duration_s := of_int 0;
            initial_peak_amplitude := of_int 0;
            final_avg_amplitude := of_int 0;
            coherence_retention := of_int 0;
            sample_count := 0 |}
  | _ :: _ =>
      let initial_count := Z.min 100 (len amplitudes) in
      let final_count := Z.min 100 (len amplitudes) in
      peak_amplitude <- py_max (map fabs (slice_prefix initial_count amplitudes)) ;;
      final_amplitude <-
        py_div (py_sum (map fabs (slice_suffix final_count amplitudes)))
               (of_int final_count) ;;
      coherence_ratio <-
        (if fgtb peak_amplitude (of_int 0)
         then py_div final_amplitude peak_amplitude
         else Ok (of_int 0)) ;;
      Ok {| total_duration_s := last times (of_int 0);
            initial_peak_amplitude := py_round peak_amplitude 6;
            final_avg_amplitude := py_round final_amplitude 6;
            coherence_retention := py_round coherence_ratio 4;
            sample_count := len resonance_data |}
  end.

(** *** generate_fft_spectrum *)

(** The inner [for i, amp in enumerate(amplitudes)] loop of bin [k]. *)
Definition dft_sums (amplitudes : list F) (n k : Z) : result (F * F) :=
  foldM (fun '(real, imag) '(i, amp) =>
           angle <- py_div (fmul (fmul (fmul (of_int (-2)) fpi) (of_int k)) (of_int i))
                           (of_int n) ;;
           Ok (fadd real (fmul amp (fcos angle)),
               fadd imag (fmul amp (fsin angle))))
        (enumerate amplitudes) (of_int 0, of_int 0).

(** The body of [for k in range(num_bins)].  [real ** 2] and
    [imag ** 2] are [fsqr]; the [OverflowError] that [**] raises when a
    square overflows is a range error, outside the model. *)
Definition spectrum_bin (amplitudes : list F) (sample_rate : F) (n k : Z)
  : result SpectrumBin :=
  '(real, imag) <- dft_sums amplitudes n k ;;
  magnitude <- py_div (fsqrt (fadd (fsqr real) (fsqr imag))) (of_int n) ;;
  frequency <- py_div (fmul (of_int k) sample_rate) (of_int n) ;;
  Ok {| frequency_hz := py_round frequency 4;
        magnitude := py_round magnitude 6 |}.

Definition generate_fft_spectrum
  (resonance_data : list DataPoint) (sample_rate : F) (max_bins : Z)
  : result Spectrum :=
  let amplitudes := map amplitude resonance_data in
  let n := len amplitudes in
  let num_bins := Z.min max_bins (n / 2) in
  spectrum <- mapM (spectrum_bin amplitudes sample_rate n) (py_range 0 num_bins) ;;
  resolution <- py_div sample_rate (of_int n) ;;
  Ok {| spectrum_type := "fft"%string;
        frequency_resolution_hz := py_round resolution 6;
        bins := num_bins;
        spectrum_data := spectrum |}.

(** *** What the functions return when nothing raises

    The same expressions with [/] read as the plain quotient. *)

(** [i / sample_rate], the time of sample [i]. *)
Definition sample_time (sample_rate : F) (i : Z) : F := fdiv (of_int i) sample_rate.

(** The weights [1.0 / h] for [h] in [range(1, harmonics + 1)]. *)
Definition weights (harmonics : Z) : list F :=
  map (fun h => fdiv (of_int 1) (of_int h)) (py_range 1 (harmonics + 1)).

(** [total_amplitude] when the inner loop ends. *)
Definition total_value (base_frequency : F) (harmonics : Z) (t : F) : F :=
  fold_left
    (fun total_amplitude h =>
       fadd total_amplitude
         (fmul (fdiv (of_int 1) (of_int h))
            (compute_resonance_amplitude (fmul base_frequency (of_int h)) t
               default_damping)))
    (py_range 1 (harmonics + 1)) (of_int 0).

(** [total_amplitude] after the normalisation, before [round]. *)
Definition normalized_value (base_frequency : F) (harmonics : Z) (t : F) : F :=
  fdiv (total_value base_frequency harmonics t) (py_sum (weights harmonics)).

(** The dictionary appended for time [t]. *)
Definition point_value (base_frequency : F) (harmonics : Z) (t : F) : DataPoint :=
  {| time := py_round t 4;
     amplitude := py_round (normalized_value base_frequency harmonics t) 6 |}.

(** [initial_count] and [final_count]. *)
Definition window (amplitudes : list F) : Z := Z.min 100 (len amplitudes).

(** [peak_amplitude], [final_amplitude], [coherence_ratio] before [round]. *)
Definition peak_value (amplitudes : list F) : F :=
  match map fabs (slice_prefix (window amplitudes) amplitudes) with
  | [] => of_int 0
  | x :: l => fold_left (fun m y => if fgtb y m then y else m) l x
  end.

Definition final_value (amplitudes : list F) : F :=
  fdiv (py_sum (map fabs (slice_suffix (window amplitudes) amplitudes)))
       (of_int (window amplitudes)).

Definition ratio_value (amplitudes : list F) : F :=
  if fgtb (peak_value amplitudes) (of_int 0)
  then fdiv (final_value amplitudes) (peak_value amplitudes)
  else of_int 0.

(** The harmonic orders [1..harmonics] are non-zero divisors. *)
Definition orders_nonzero (harmonics : Z) : Prop :=
  forall h : Z, (1 <= h <= harmonics)%Z -> is_zero (of_int h) = false.

(** The dictionary returned for a given list of data points. *)
Definition simulation_of (base_frequency : F) (harmonics : Z) (duration sample_rate : F)
  (data : list DataPoint) : Simulation :=
  {| simulation_type := "harmonic_qubit_resonance"%string;
     parameters := {| base_frequency_hz := base_frequency;
                      harmonics_count := harmonics;
                      duration_seconds := duration;
                      sample_rate_hz := sample_rate |};
     data_points := len data;
     resonance_data := data |}.

(** The dictionaries returned by the two analyses. *)
Definition zero_metrics : CoherenceMetrics :=
  {| total_duration_s := of_int 0;
     initial_peak_amplitude := of_int 0;
     final_avg_amplitude := of_int 0;
     coherence_retention := of_int 0;
     sample_count := 0 |}.

Definition metrics_of (resonance_data : list DataPoint) : CoherenceMetrics :=
  let amplitudes := map amplitude resonance_data in
  {| total_duration_s := last (map time resonance_data) (of_int 0);
     initial_peak_amplitude := py_round (peak_value amplitudes) 6;
     final_avg_amplitude := py_round (final_value amplitudes) 6;
     coherence_retention := py_round (ratio_value amplitudes) 4;
     sample_count := len resonance_data |}.

Definition spectrum_of (resonance_data : list DataPoint) (sample_rate : F)
  (max_bins : Z) (spectrum : list SpectrumBin) : Spectrum :=
  let n := len (map amplitude resonance_data) in
  {| spectrum_type := "fft"%string;
     frequency_resolution_hz := py_round (fdiv sample_rate (of_int n)) 6;
     bins := Z.min max_bins (n / 2);
     spectrum_data := spectrum |}.

(** The facts about the carrier that the loops rely on: the int 0 is a
    zero divisor, the window sizes [1..100] are not, and a value that
    passed the guard [x > 0] is not. *)
Record PyFloatLaws : Prop := {
  is_zero_0 : is_zero (of_int 0) = true;
  window_nonzero : forall k : Z, (1 <= k <= 100)%Z -> is_zero (of_int k) = false;
  gt_zero_nonzero : forall x : F, fgtb x (of_int 0) = true -> is_zero x = false
}.

End Pipeline.

Arguments DataPoint : clear implicits.
Arguments Parameters : clear implicits.
Arguments Simulation : clear implicits.
Arguments CoherenceMetrics : clear implicits.
Arguments SpectrumBin : clear implicits.
Arguments Spectrum : clear implicits.
Arguments PyFloatLaws {F} ops.

(** ** Exact arithmetic: the real numbers *)

Module Exact.

Open Scope R_scope.

(** [int(x)]: the integer part toward zero. *)
Definition Rtrunc (x : R) : Z :=
  if Rle_dec 0 x then Int_part x else (- Int_part (- x))%Z.

(** The integer nearest to [x], a tie going to the even neighbour. *)
Definition round_half_even (x : R) : Z :=
  let f := Int_part x in
  if Rlt_dec (x - IZR f) (1 / 2) then f
  else if Rlt_dec (1 / 2) (x - IZR f) then (f + 1)%Z
  else if Z.even f then f else (f + 1)%Z.

(** [round(x, ndigits)]: the multiple of [10^-ndigits] nearest to [x]. *)
Definition Rround (x : R) (ndigits : Z) : R :=
  IZR (round_half_even (x * powerRZ 10 ndigits)) / powerRZ 10 ndigits.

Definition Reqb0 (x : R) : bool := if Req_dec_T x 0 then true else false.

Definition Rgtb (x y : R) : bool := if Rlt_dec y x then true else false.

(** Exact arithmetic has no rounding and no range: a product is the
    real product and [int()] never raises.  The number of samples of a
    call and whether it raises can differ from binary64, and so can a
    strict order between two results; statements about those are made
    on [b64_float]. *)
#[export] Instance R_float : PyFloat R := {|
  of_int := IZR;
  fadd := Rplus;
  fmul := Rmult;
  fdiv := Rdiv;
  fneg := Ropp;
  fabs := Rabs;
  is_zero := Reqb0;
  fgtb := Rgtb;
  to_int := fun x => Ok (Rtrunc x);
  py_round := Rround;
  fpi := PI;
  fsin := sin;
  fcos := cos;
  fexp := exp;
  fsqrt := sqrt;
  fsqr := fun x => x * x
|}.


(** *** The closed forms the statements below compare the code with *)

(** The sum of a list of reals. *)
Definition Rsum (l : list R) : R := fold_right Rplus 0 l.

(** The harmonic weight sum [1/1 + ... + 1/harmonics]. *)
Definition harmonic_weight (harmonics : Z) : R :=
  Rsum (map (fun h => 1 / IZR h) (py_range 1 (harmonics + 1))).



(** [v] is [x] rounded to [k] decimal places: a multiple of [10^-k] at
    distance at most half a unit of the last place. *)
Definition rounded_to (k : nat) (x v : R) : Prop :=
  (exists z : Z, v = IZR z / 10 ^ k) /\ Rabs (v - x) <= / 2 * / 10 ^ k.

(** [p] is the largest magnitude in [l]. *)
Definition is_max_abs (l : list R) (p : R) : Prop :=
  In p (map Rabs l) /\ forall a : R, In a l -> Rabs a <= p.

(** The mean magnitude of [l]. *)
Definition mean_abs (l : list R) : R := Rsum (map Rabs l) / IZR (len l).

(** A two-field dictionary [{"time": t, "amplitude": a}]. *)
Definition point (t a : R) : DataPoint R := {| time := t; amplitude := a |}.

End Exact.

(** ** IEEE binary64: the arithmetic of CPython's [float] *)

Module Binary64.

(** The libm functions behind [math.sin], [math.cos], [math.exp] and
    [x ** 2]; their results are platform-specific. *)
Class Libm : Type := {
  libm_sin : float -> float;
  libm_cos : float -> float;
  libm_exp : float -> float;
  libm_sqr : float -> float
}.

(** [float(z)]: the binary64 nearest to the integer [z]. *)
Definition float_of_Z (z : Z) : float :=
  SF2Prim (binary_normalize prec emax z 0 false).

(** [int(x)] *)
Definition float_to_int (x : float) : result Z :=
  match Prim2SF x with
  | S754_nan => Raise ValueError
  | S754_infinity _ => Raise OverflowError
  | S754_zero _ => Ok 0%Z
  | S754_finite s m e => Ok (cond_Zopp s (Z.shiftl (Zpos m) e))
  end.

(** The integer nearest to [num / den], a tie going to the even one. *)
Definition div_half_even (num den : Z) : Z :=
  let q := (num / den)%Z in
  let r := (num mod den)%Z in
  match (2 * r ?= den)%Z with
  | Lt => q
  | Gt => (q + 1)%Z
  | Eq => if Z.even q then q else (q + 1)%Z
  end.

(** The binary64 nearest to [(-1)^s * q / d]. *)
Definition nearest_quotient (s : bool) (q : Z) (d : positive) : float :=
  match q with
  | Zpos p => SF2Prim (SFdiv prec emax (S754_finite s p 0) (S754_finite false d 0))
  | _ => SF2Prim (S754_zero s)
  end.

(** [round(x, ndigits)] as CPython computes it: the exact value of [x]
    is rounded half-even to [ndigits] decimals and the decimal result is
    converted back to the nearest binary64. *)
Definition float_round (x : float) (ndigits : Z) : float :=
  match Prim2SF x with
  | S754_finite s m e =>
      let num := (Zpos m * 2 ^ Z.max e 0 * 10 ^ Z.max ndigits 0)%Z in
      let den := (2 ^ Z.max (- e) 0 * 10 ^ Z.max (- ndigits) 0)%Z in
      let q := div_half_even num den in
      if (0 <=? ndigits)%Z
      then nearest_quotient s q (Z.to_pos (10 ^ ndigits))
      else SF2Prim (binary_normalize prec emax
                      (cond_Zopp s (q * 10 ^ (- ndigits))) 0 s)
  | _ => x
  end.

(** [math.pi] *)
Definition float_pi : float := 0x1.921fb54442d18p+1%float.

Definition is_infinite (x : float) : bool :=
  match Prim2SF x with
  | S754_infinity _ => true
  | _ => false
  end.

(** [a / b] on two ints, [b] not 0: the binary64 nearest to the exact
    quotient, negative when one operand is ([0 / -3] is [-0.0]). *)
Definition int_quotient (a b : Z) : float :=
  nearest_quotient (xorb (a <? 0)%Z (b <? 0)%Z) (Z.abs a) (Z.to_pos (Z.abs b)).

(** An int converts unless the nearest binary64 is an infinity. *)
#[export] Instance b64_ints : PyIntFloat float := {|
  converts := fun z => negb (is_infinite (float_of_Z z));
  true_quotient := int_quotient;
  quotient_fits := fun a b => negb (is_infinite (int_quotient a b))
|}.

Section WithLibm.

Context {libm : Libm}.

#[export] Instance b64_float : PyFloat float := {|
  of_int := float_of_Z;
  fadd := PrimFloat.add;
  fmul := PrimFloat.mul;
  fdiv := PrimFloat.div;
  fneg := PrimFloat.opp;
  fabs := PrimFloat.abs;
  is_zero := fun x => PrimFloat.eqb x PrimFloat.zero;
  fgtb := fun x y => PrimFloat.ltb y x;
  to_int := float_to_int;
  py_round := float_round;
  fpi := float_pi;
  fsin := libm_sin;
  fcos := libm_cos;
  fexp := libm_exp;
  fsqrt := PrimFloat.sqrt;
  fsqr := libm_sqr
|}.

End WithLibm.

(** A decimal literal [m * 10^-k] of the source text: CPython reads it
    as the binary64 nearest to that decimal. *)
Definition decimal (m : Z) (k : nat) : float :=
  nearest_quotient (m <? 0)%Z (Z.abs m) (Z.to_pos (10 ^ Z.of_nat k)).

(** The literals of [run_simulation] and of its results. *)
Definition f_5_0 : float := decimal 50 1.
Definition f_72_1 : float := decimal 721 1.
Definition f_100_0 : float := decimal 1000 1.
Definition f_72_08 : float := decimal 7208 2.
Definition f_0_013872 : float := decimal 13872 6.

(** [1.0], [0.25], [3.0], [0.3333333333333333], and the smallest
    positive binary64, [2^-1074]. *)
Definition f_1_0 : float := decimal 10 1.
Definition f_0_25 : float := decimal 25 2.
Definition f_3_0 : float := decimal 30 1.
Definition f_one_third : float := decimal 3333333333333333 16.
Definition f_min_positive : float := 0x1p-1074%float.

(** The literals [440.0] and [0.7] of [generate_fft_audio_sample]. *)
Definition f_440_0 : float := decimal 4400 1.
Definition f_0_7 : float := decimal 7 1.

End Binary64.

(** ** The spectrum, bin by bin *)

Section SpectrumValues.

Context {F : Type} {ops : PyFloat F}.



End SpectrumValues.

(** ** scripts/generate_fft_audio.py *)

(** [struct.pack] formats used by [save_wav_file]: ['<h'] and ['b']. *)
Inductive PackFormat : Type :=
| pack_h_le
| pack_b.

(** What [save_wav_file] can end in: a Python built-in exception,
    [struct.error], or [wave.Error]. *)
Inductive AudioError : Type :=
| BuiltinError (e : PyError)
| StructError
| WaveError.

(** The calls on the [wave] writer that returned, in order.  Bytes are
    integers in [0..255]. *)
Inductive WaveCall : Type :=
| SetNChannels (nchannels : Z)
| SetSampWidth (sampwidth : Z)
| SetFrameRate (framerate : Z)
| WriteFrames (data : list Z).

(** [struct.pack(fmt, v)]: two's complement, little-endian for ['<h'];
    [struct.error] ([None]) when [v] does not fit. *)
Definition struct_pack (fmt : PackFormat) (v : Z) : option (list Z) :=
  match fmt with
  | pack_h_le =>
      if ((-32768 <=? v) && (v <=? 32767))%Z
      then Some [(v mod 256)%Z; ((v / 256) mod 256)%Z]
      else None
  | pack_b =>
      if ((-128 <=? v) && (v <=? 127))%Z
      then Some [(v mod 256)%Z]
      else None
  end.

(** [struct.unpack(fmt, data)[0]], to read a frame back. *)
Definition struct_unpack (fmt : PackFormat) (data : list Z) : option Z :=
  match fmt, data with
  | pack_h_le, [b0; b1] =>
      let u := (b0 + 256 * b1)%Z in
      Some (if (u <? 32768)%Z then u else (u - 65536)%Z)
  | pack_b, [b0] => Some (if (b0 <? 128)%Z then b0 else (b0 - 256)%Z)
  | _, _ => None
  end.

(** *** The [wave] writer

    [Wave_write] of the standard library, for one channel: what it
    keeps between calls, and the integers it packs with [struct.pack]
    into the RIFF header.  A value packed as ['<L'] must lie in
    [0 .. 2^32 - 1], otherwise [struct.error] ([None]) is raised.
    (Frames are written as they are: the platform is little-endian.) *)

Record WriterState : Type := {
  headerwritten : bool;
  datawritten : Z;
  datalength : Z
}.

(** The writer after [wave.open(filename, 'w')]. *)
Definition new_writer : WriterState :=
  {| headerwritten := false; datawritten := 0; datalength := 0 |}.

Definition fits_uint32 (v : Z) : bool := ((0 <=? v) && (v <? 2 ^ 32))%Z.

(** [_ensure_header_written(datasize)]: the first time, [_write_header]
    packs the form length [36 + datalength], the frame rate, the byte
    rate [framerate * sampwidth] and the data length. *)
Definition ensure_header_written (sampwidth framerate : Z) (st : WriterState)
  (datasize : Z) : option WriterState :=
  if headerwritten st then Some st
  else
    let nframes := (datasize / sampwidth)%Z in
    let initial := (nframes * sampwidth)%Z in
    if fits_uint32 (36 + initial) && fits_uint32 framerate
       && fits_uint32 (framerate * sampwidth) && fits_uint32 initial
    then Some {| headerwritten := true;
                 datawritten := datawritten st;
                 datalength := initial |}
    else None.

(** [_patchheader()]: rewrites the two lengths of the header. *)
Definition patchheader (st : WriterState) : option WriterState :=
  if (datawritten st =? datalength st)%Z then Some st
  else if fits_uint32 (36 + datawritten st) && fits_uint32 (datawritten st)
  then Some {| headerwritten := headerwritten st;
               datawritten := datawritten st;
               datalength := datawritten st |}
  else None.

(** [writeframes(data)] *)
Definition writeframes (sampwidth framerate : Z) (st : WriterState) (data : list Z)
  : option WriterState :=
  match ensure_header_written sampwidth framerate st (len data) with
  | None => None
  | Some st1 =>
      let st2 := {| headerwritten := headerwritten st1;
                    datawritten := (datawritten st1 + len data)%Z;
                    datalength := datalength st1 |} in
      if (datalength st2 =? datawritten st2)%Z then Some st2 else patchheader st2
  end.

(** [close()], called when the [with] block is left. *)
Definition close_writer (sampwidth framerate : Z) (st : WriterState)
  : option WriterState :=
  match ensure_header_written sampwidth framerate st 0 with
  | None => None
  | Some st1 =>
      if (datalength st1 =? datawritten st1)%Z then Some st1 else patchheader st1
  end.

Section Audio.

Context {F : Type} {ops : PyFloat F} {ints : PyIntFloat F}.

(** An int operand of a float operation. *)
Definition float_operand (z : Z) : result F :=
  if converts z then Ok (of_int z) else Raise OverflowError.

(** [a / b] on two ints. *)
Definition int_truediv (a b : Z) : result F :=
  if (b =? 0)%Z then Raise ZeroDivisionError
  else if quotient_fits a b then Ok (true_quotient a b)
  else Raise OverflowError.

(** [min(a, b)] and [max(a, b)] of two arguments: the second one is
    taken only when it compares strictly below (above) the first. *)
Definition py_min2 (a b : F) : F := if fgtb a b then b else a.

Definition py_max2 (a b : F) : F := if fgtb b a then b else a.

(** The local [damping = 0.02]. *)
Definition audio_damping : F := lit 2 2.

(** The inner [for h in range(1, harmonics + 1)] loop at time [t]. *)
Definition audio_harmonics (base_frequency : F) (harmonics : Z) (t : F) : result F :=
  foldM (fun sample h =>
           let freq := fmul base_frequency (of_int h) in
           weight <- py_div (of_int 1) (of_int h) ;;
           let phase := fmul (fmul (fmul (of_int 2) fpi) freq) t in
           Ok (fadd sample (fmul weight (fsin phase))))
        (py_range 1 (harmonics + 1)) (of_int 0).

(** The body of [for i in range(num_samples)]; [i / sample_rate]
    divides two ints. *)
Definition audio_sample (base_frequency : F) (harmonics sample_rate : Z) (amplitude : F)
  (i : Z) : result F :=
  t <- int_truediv i sample_rate ;;
  let decay := fexp (fmul (fneg audio_damping) t) in
  sample <- audio_harmonics base_frequency harmonics t ;;
  norm <- weight_sum harmonics ;;
  gain <- py_div (fmul decay amplitude) norm ;;
  Ok (fmul sample gain).

(** [duration * sample_rate] converts the int [sample_rate]. *)
Definition generate_resonance_audio
  (base_frequency : F) (harmonics : Z) (duration : F) (sample_rate : Z) (amplitude : F)
  : result (list F) :=
  rate <- float_operand sample_rate ;;
  num_samples <- to_int (fmul duration rate) ;;
  mapM (audio_sample base_frequency harmonics sample_rate amplitude)
       (py_range 0 num_samples).

(** [clamped] and [int_sample] of one sample. *)
Definition clamp_sample (sample : F) : F :=
  py_max2 (fneg (of_int 1)) (py_min2 (of_int 1) sample).

Definition int_sample_of (max_val : Z) (sample : F) : result Z :=
  to_int (fmul (clamp_sample sample) (of_int max_val)).

(** The [for sample in samples] loop: the calls that returned so far,
    the state of the writer, and the exception that ended the loop if
    one did. *)
Fixpoint write_samples (max_val : Z) (pack_format : PackFormat)
  (sampwidth framerate : Z) (samples : list F)
  (calls : list WaveCall) (st : WriterState)
  : list WaveCall * WriterState * option AudioError :=
  match samples with
  | [] => (calls, st, None)
  | sample :: rest =>
      match int_sample_of max_val sample with
      | Raise e => (calls, st, Some (BuiltinError e))
      | Ok int_sample =>
          match struct_pack pack_format int_sample with
          | None => (calls, st, Some StructError)
          | Some data =>
              match writeframes sampwidth framerate st data with
              | None => (calls, st, Some StructError)
              | Some st' =>
                  write_samples max_val pack_format sampwidth framerate rest
                    (calls ++ [WriteFrames data]) st'
              end
          end
      end
  end.

(** [save_wav_file], as the calls it makes on the [wave] writer and the
    exception it ends in, if any.  The writer refuses a sample width
    outside [1..4] and a frame rate [<= 0] with [wave.Error]; leaving
    the [with] block closes the writer, also when the block raised, and
    an exception of [close] replaces the one of the block (after a
    refused width or rate, [close] raises [wave.Error] again).  Opening
    the file and writing to it are outside the model. *)
Definition save_wav_file (samples : list F) (sample_rate bits_per_sample : Z)
  : list WaveCall * option AudioError :=
  let '(max_val, pack_format) :=
    if (bits_per_sample =? 16)%Z then (32767%Z, pack_h_le) else (127%Z, pack_b) in
  if ((bits_per_sample / 8 <? 1) || (4 <? bits_per_sample / 8))%Z
  then ([SetNChannels 1], Some WaveError)
  else if (sample_rate <=? 0)%Z
  then ([SetNChannels 1; SetSampWidth (bits_per_sample / 8)], Some WaveError)
  else
    let '(calls, st, raised) :=
      write_samples max_val pack_format (bits_per_sample / 8) sample_rate samples
        [SetNChannels 1; SetSampWidth (bits_per_sample / 8); SetFrameRate sample_rate]
        new_writer in
    match close_writer (bits_per_sample / 8) sample_rate st with
    | None => (calls, Some StructError)
    | Some _ => (calls, raised)
    end.


End Audio.

(** *** Closed forms for the spectrum, in exact arithmetic *)

Module ExactSpectrum.

Import Exact.
Open Scope R_scope.




End ExactSpectrum.

(** ** Loops that do not raise *)

Section Loops.

Variables A B S : Type.

Lemma mapM_pure (f : A -> result B) (g : A -> B) (l : list A) :
  (forall a, In a l -> f a = Ok (g a)) -> mapM f l = Ok (map g l).
Proof.
  induction l as [|a l IH]; intros Hf; simpl.
  - reflexivity.
  - rewrite (Hf a) by (left; reflexivity). simpl.
    rewrite IH by (intros b Hb; apply Hf; right; exact Hb).
    reflexivity.
Qed.

Lemma mapM_length (f : A -> result B) (l : list A) (bs : list B) :
  mapM f l = Ok bs -> length bs = length l.
Proof.
  revert bs. induction l as [|a l IH]; intros bs; simpl.
  - intros E. inversion E. reflexivity.
  - destruct (f a) as [b|e]; simpl; [|discriminate].
    destruct (mapM f l) as [bs'|e]; simpl; [|discriminate].
    intros E. inversion E. simpl. f_equal. apply IH. reflexivity.
Qed.

Lemma mapM_nth (f : A -> result B) (l : list A) (bs : list B) (i : nat) (da : A) (db : B) :
  mapM f l = Ok bs -> (i < length l)%nat -> f (nth i l da) = Ok (nth i bs db).
Proof.
  revert bs i. induction l as [|a l IH]; intros bs i; simpl.
  - intros _ Hi. lia.
  - destruct (f a) as [b|e] eqn:Hb; simpl; [|discriminate].
    destruct (mapM f l) as [bs'|e]; simpl; [|discriminate].
    intros E Hi. inversion E; subst bs. destruct i as [|i]; simpl.
    + exact Hb.
    + apply IH; [reflexivity|lia].
Qed.

Lemma foldM_pure (f : S -> A -> result S) (g : S -> A -> S) (l : list A) (s : S) :
  (forall s' a, In a l -> f s' a = Ok (g s' a)) ->
  foldM f l s = Ok (fold_left g l s).
Proof.
  revert s. induction l as [|a l IH]; intros s Hf; simpl.
  - reflexivity.
  - rewrite (Hf s a) by (left; reflexivity). simpl.
    apply IH. intros s' b Hb. apply Hf. right. exact Hb.
Qed.

End Loops.

Lemma py_range_nil (lo hi : Z) : (hi <= lo)%Z -> py_range lo hi = [].
Proof.
  intros Hle. unfold py_range.
  replace (Z.to_nat (hi - lo)) with 0%nat by lia. reflexivity.
Qed.

Lemma py_range_length (lo hi : Z) : length (py_range lo hi) = Z.to_nat (hi - lo).
Proof. unfold py_range. rewrite length_map, length_seq. reflexivity. Qed.

Lemma py_range_In (lo hi h : Z) : In h (py_range lo hi) <-> (lo <= h < hi)%Z.
Proof.
  unfold py_range. rewrite in_map_iff. split.
  - intros (i & <- & Hi). apply in_seq in Hi. lia.
  - intros Hh. exists (Z.to_nat (h - lo)). split; [lia|].
    apply in_seq. lia.
Qed.

Lemma py_range_cons (lo hi : Z) :
  (lo < hi)%Z -> py_range lo hi = lo :: py_range (lo + 1) hi.
Proof.
  intros Hlt. unfold py_range.
  replace (Z.to_nat (hi - lo)) with (Datatypes.S (Z.to_nat (hi - (lo + 1)))) by lia.
  simpl. f_equal; [lia|].
  rewrite <- seq_shift, map_map. apply map_ext. intros i. lia.
Qed.

Lemma py_range_nth (lo hi : Z) (i : nat) (d : Z) :
  (i < Z.to_nat (hi - lo))%nat -> nth i (py_range lo hi) d = (lo + Z.of_nat i)%Z.
Proof.
  intros Hi. unfold py_range.
  set (g := fun j : nat => (lo + Z.of_nat j)%Z).
  rewrite (nth_indep _ d (g 0%nat))
    by (rewrite length_map, length_seq; exact Hi).
  rewrite map_nth, seq_nth by exact Hi. reflexivity.
Qed.

Lemma py_range_snoc (n : Z) :
  (0 < n)%Z -> py_range 0 n = py_range 0 (n - 1) ++ [(n - 1)%Z].
Proof.
  intros Hn. unfold py_range.
  replace (Z.to_nat (n - 0)) with (Datatypes.S (Z.to_nat (n - 1 - 0))) by lia.
  rewrite seq_S, map_app. simpl. do 2 f_equal. lia.
Qed.

Lemma last_map_range {B : Type} (f : Z -> B) (n : Z) (d : B) :
  (0 < n)%Z -> last (map f (py_range 0 n)) d = f (n - 1)%Z.
Proof.
  intros Hn. rewrite py_range_snoc by exact Hn. rewrite map_app. apply last_last.
Qed.

Section Totality.

Variables A B S : Type.

Lemma mapM_total (f : A -> result B) (l : list A) :
  (forall a, In a l -> exists b, f a = Ok b) -> exists bs, mapM f l = Ok bs.
Proof.
  induction l as [|a l IH]; intros Hf; simpl.
  - exists []. reflexivity.
  - destruct (Hf a) as [b Hb]; [left; reflexivity|].
    destruct IH as [bs Hbs]; [intros x Hx; apply Hf; right; exact Hx|].
    exists (b :: bs). rewrite Hb, Hbs. reflexivity.
Qed.

Lemma foldM_total (f : S -> A -> result S) (l : list A) (s : S) :
  (forall s' a, In a l -> exists s'', f s' a = Ok s'') ->
  exists r, foldM f l s = Ok r.
Proof.
  revert s. induction l as [|a l IH]; intros s Hf; simpl.
  - exists s. reflexivity.
  - destruct (Hf s a) as [s1 Hs1]; [left; reflexivity|].
    rewrite Hs1. simpl. apply IH. intros s' b Hb. apply Hf. right. exact Hb.
Qed.

End Totality.

(** ** The pipeline over any carrier *)

Section PipelineFacts.

Context {F : Type} {ops : PyFloat F}.

Lemma py_div_nonzero (x y : F) : is_zero y = false -> py_div x y = Ok (fdiv x y).
Proof. intros Hy. unfold py_div. rewrite Hy. reflexivity. Qed.

Lemma py_div_zero (x y : F) : is_zero y = true -> py_div x y = Raise ZeroDivisionError.
Proof. intros Hy. unfold py_div. rewrite Hy. reflexivity. Qed.

Lemma weight_sum_pure (harmonics : Z) :
  orders_nonzero harmonics -> weight_sum harmonics = Ok (py_sum (weights harmonics)).
Proof.
  intros Hnz. unfold weight_sum, weights.
  rewrite (mapM_pure _ (fun h => fdiv (of_int 1) (of_int h))).
  - reflexivity.
  - intros h Hh. apply py_range_In in Hh. apply py_div_nonzero, Hnz. lia.
Qed.

Lemma weight_sum_no_harmonics (harmonics : Z) :
  (harmonics < 1)%Z -> weight_sum harmonics = Ok (of_int 0).
Proof.
  intros Hlt. unfold weight_sum. rewrite py_range_nil by lia. reflexivity.
Qed.

Lemma harmonic_total_pure (base_frequency : F) (harmonics : Z) (t : F) :
  orders_nonzero harmonics ->
  harmonic_total base_frequency harmonics t = Ok (total_value base_frequency harmonics t).
Proof.
  intros Hnz. unfold harmonic_total, total_value.
  apply foldM_pure. intros acc h Hh. apply py_range_In in Hh.
  rewrite py_div_nonzero by (apply Hnz; lia). reflexivity.
Qed.

Lemma harmonic_total_no_harmonics (base_frequency : F) (harmonics : Z) (t : F) :
  (harmonics < 1)%Z -> harmonic_total base_frequency harmonics t = Ok (of_int 0).
Proof.
  intros Hlt. unfold harmonic_total. rewrite py_range_nil by lia. reflexivity.
Qed.

Lemma resonance_point_pure (base_frequency : F) (harmonics : Z) (t : F) :
  orders_nonzero harmonics ->
  is_zero (py_sum (weights harmonics)) = false ->
  resonance_point base_frequency harmonics t = Ok (point_value base_frequency harmonics t).
Proof.
  intros Hnz Hsum. unfold resonance_point.
  rewrite harmonic_total_pure, weight_sum_pure by assumption. simpl.
  rewrite py_div_nonzero by assumption. reflexivity.
Qed.

Lemma resonance_point_no_harmonics (base_frequency : F) (harmonics : Z) (t : F) :
  is_zero (of_int 0) = true -> (harmonics < 1)%Z ->
  resonance_point base_frequency harmonics t = Raise ZeroDivisionError.
Proof.
  intros H0 Hlt. unfold resonance_point.
  rewrite harmonic_total_no_harmonics, weight_sum_no_harmonics by assumption. simpl.
  rewrite py_div_zero by assumption. reflexivity.
Qed.

Lemma simulate_no_samples
  (base_frequency : F) (harmonics : Z) (duration sample_rate : F) (n : Z) :
  to_int (fmul duration sample_rate) = Ok n -> (n <= 0)%Z ->
  simulate_harmonic_qubit base_frequency harmonics duration sample_rate
  = Ok (simulation_of base_frequency harmonics duration sample_rate []).
Proof.
  intros Hn Hle. unfold simulate_harmonic_qubit. rewrite Hn. simpl.
  rewrite py_range_nil by lia. reflexivity.
Qed.

Lemma time_points_pure (sample_rate : F) (n : Z) :
  is_zero sample_rate = false ->
  mapM (fun t => py_div (of_int t) sample_rate) (py_range 0 n)
  = Ok (map (sample_time sample_rate) (py_range 0 n)).
Proof.
  intros Hsr. apply mapM_pure. intros i _. apply py_div_nonzero, Hsr.
Qed.

Lemma simulate_pure
  (base_frequency : F) (harmonics : Z) (duration sample_rate : F) (n : Z) :
  to_int (fmul duration sample_rate) = Ok n ->
  is_zero sample_rate = false ->
  orders_nonzero harmonics ->
  is_zero (py_sum (weights harmonics)) = false ->
  simulate_harmonic_qubit base_frequency harmonics duration sample_rate
  = Ok (simulation_of base_frequency harmonics duration sample_rate
          (map (fun i => point_value base_frequency harmonics (sample_time sample_rate i))
               (py_range 0 n))).
Proof.
  intros Hn Hsr Hnz Hsum. unfold simulate_harmonic_qubit. rewrite Hn. simpl.
  rewrite time_points_pure by assumption. simpl.
  rewrite (mapM_pure _ (point_value base_frequency harmonics)).
  - simpl. rewrite map_map. reflexivity.
  - intros t _. apply resonance_point_pure; assumption.
Qed.

Lemma simulate_no_harmonics
  (base_frequency : F) (harmonics : Z) (duration sample_rate : F) (n : Z) :
  is_zero (of_int 0) = true ->
  to_int (fmul duration sample_rate) = Ok n -> (1 <= n)%Z ->
  is_zero sample_rate = false -> (harmonics < 1)%Z ->
  simulate_harmonic_qubit base_frequency harmonics duration sample_rate
  = Raise ZeroDivisionError.
Proof.
  intros H0 Hn Hpos Hsr Hlt. unfold simulate_harmonic_qubit. rewrite Hn. simpl.
  rewrite time_points_pure by assumption. simpl.
  rewrite py_range_cons by lia. simpl.
  rewrite resonance_point_no_harmonics by assumption. reflexivity.
Qed.

Lemma simulate_int_raises
  (base_frequency : F) (harmonics : Z) (duration sample_rate : F) (e : PyError) :
  to_int (fmul duration sample_rate) = Raise e ->
  simulate_harmonic_qubit base_frequency harmonics duration sample_rate = Raise e.
Proof. intros Hn. unfold simulate_harmonic_qubit. rewrite Hn. reflexivity. Qed.

(** With a first sample and no harmonic the call ends in
    [ZeroDivisionError] whatever [sample_rate] is: at [t / sample_rate]
    when it is zero, at the normalisation otherwise. *)
Lemma simulate_first_sample_no_harmonics
  (base_frequency : F) (harmonics : Z) (duration sample_rate : F) (n : Z) :
  is_zero (of_int 0) = true ->
  to_int (fmul duration sample_rate) = Ok n -> (1 <= n)%Z -> (harmonics < 1)%Z ->
  simulate_harmonic_qubit base_frequency harmonics duration sample_rate
  = Raise ZeroDivisionError.
Proof.
  intros H0 Hn Hpos Hlt. destruct (is_zero sample_rate) eqn:Hsr.
  - unfold simulate_harmonic_qubit. rewrite Hn. cbn [bind].
    rewrite py_range_cons by lia. cbn [mapM].
    rewrite py_div_zero by exact Hsr. reflexivity.
  - apply simulate_no_harmonics with (n := n); assumption.
Qed.

(** What a returned simulation holds: as many points as the range has
    indices, the point of index [i] carrying the time
    [round(i / sample_rate, 4)]. *)
Lemma simulate_returned
  (base_frequency : F) (harmonics : Z) (duration sample_rate : F)
  (sim : Simulation F) :
  simulate_harmonic_qubit base_frequency harmonics duration sample_rate = Ok sim ->
  exists n : Z,
    to_int (fmul duration sample_rate) = Ok n
    /\ data_points sim = Z.max 0 n
    /\ len (resonance_data sim) = Z.max 0 n
    /\ forall (i : nat) (d : DataPoint F), (i < length (resonance_data sim))%nat ->
         time (nth i (resonance_data sim) d)
         = py_round (sample_time sample_rate (Z.of_nat i)) 4.
Proof.
  intros Hsim. unfold simulate_harmonic_qubit in Hsim.
  destruct (to_int (fmul duration sample_rate)) as [n|e]; [|discriminate].
  cbn [bind] in Hsim.
  destruct (mapM _ (py_range 0 n)) as [ts|e] eqn:Hts; [|discriminate].
  cbn [bind] in Hsim.
  destruct (mapM _ ts) as [data|e] eqn:Hdata; [|discriminate].
  cbn [bind] in Hsim. inversion Hsim; subst sim. cbn [data_points resonance_data].
  pose proof (mapM_length _ _ Hts) as Lts. pose proof (mapM_length _ _ Hdata) as Ldata.
  rewrite py_range_length in Lts.
  exists n. split; [reflexivity|]. split; [unfold len; lia|]. split; [unfold len; lia|].
  intros i d Hi.
  assert (Hi' : (i < length (py_range 0 n))%nat) by (rewrite py_range_length; lia).
  pose proof (@mapM_nth _ _ _ _ _ i 0%Z (of_int 0) Hts Hi') as Ht.
  rewrite py_range_nth in Ht by lia.
  unfold py_div in Ht.
  destruct (is_zero sample_rate); [discriminate|]. inversion Ht as [Et]. clear Ht.
  assert (Hi'' : (i < length ts)%nat) by lia.
  pose proof (@mapM_nth _ _ _ _ _ i (of_int 0) d Hdata Hi'') as Hp.
  rewrite <- Et in Hp. unfold resonance_point in Hp.
  destruct (harmonic_total _ _ _) as [tot|e]; [|discriminate]. cbn [bind] in Hp.
  destruct (weight_sum _) as [norm|e]; [|discriminate]. cbn [bind] in Hp.
  destruct (py_div tot norm) as [q|e]; [|discriminate]. cbn [bind] in Hp.
  inversion Hp as [Ep]. cbn [time]. unfold sample_time.
  replace (0 + Z.of_nat i)%Z with (Z.of_nat i) by lia. reflexivity.
Qed.

End PipelineFacts.

Section AnalysisFacts.

Context {F : Type} {ops : PyFloat F}.

Lemma compute_coherence_metrics_empty :
  compute_coherence_metrics (@nil (DataPoint F)) = Ok zero_metrics.
Proof. reflexivity. Qed.

Lemma window_bounds (amplitudes : list F) :
  amplitudes <> [] -> (1 <= window amplitudes <= 100)%Z.
Proof.
  intros Hne. unfold window, len. destruct amplitudes as [|a l]; [contradiction|].
  simpl length. lia.
Qed.

Lemma slice_prefix_nonempty (amplitudes : list F) :
  amplitudes <> [] -> slice_prefix (window amplitudes) amplitudes <> [].
Proof.
  intros Hne. pose proof (window_bounds Hne) as Hw.
  unfold slice_prefix. destruct amplitudes as [|a l]; [contradiction|].
  destruct (Z.to_nat (window (a :: l))) eqn:E; [lia|]. simpl. discriminate.
Qed.

Lemma py_max_peak_value (amplitudes : list F) :
  amplitudes <> [] ->
  py_max (map fabs (slice_prefix (window amplitudes) amplitudes))
  = Ok (peak_value amplitudes).
Proof.
  intros Hne. unfold peak_value.
  pose proof (slice_prefix_nonempty Hne) as Hp.
  destruct (slice_prefix (window amplitudes) amplitudes) as [|x l]; [contradiction|].
  reflexivity.
Qed.

Lemma compute_coherence_metrics_nonempty (resonance_data : list (DataPoint F)) :
  PyFloatLaws ops -> resonance_data <> [] ->
  compute_coherence_metrics resonance_data = Ok (metrics_of resonance_data).
Proof.
  intros L Hne. unfold compute_coherence_metrics, metrics_of.
  set (amplitudes := map amplitude resonance_data).
  assert (Ha : amplitudes <> []).
  { subst amplitudes. destruct resonance_data; [contradiction|discriminate]. }
  destruct amplitudes as [|a0 l0] eqn:Eamp; [contradiction|].
  rewrite <- Eamp in *. fold (window amplitudes).
  rewrite py_max_peak_value by exact Ha. simpl.
  rewrite py_div_nonzero by (apply (window_nonzero L), window_bounds, Ha). simpl.
  fold (final_value amplitudes). unfold ratio_value.
  destruct (fgtb (peak_value amplitudes) (of_int 0)) eqn:Hgt.
  - rewrite py_div_nonzero by (apply (gt_zero_nonzero L), Hgt). reflexivity.
  - reflexivity.
Qed.

Lemma dft_sums_total (amplitudes : list F) (n k : Z) :
  is_zero (of_int n) = false -> exists p, dft_sums amplitudes n k = Ok p.
Proof.
  intros Hn. unfold dft_sums. apply foldM_total.
  intros [re im] [i amp] _. rewrite py_div_nonzero by exact Hn. simpl. eauto.
Qed.

Lemma spectrum_bin_total (amplitudes : list F) (sample_rate : F) (n k : Z) :
  is_zero (of_int n) = false ->
  exists b, spectrum_bin amplitudes sample_rate n k = Ok b.
Proof.
  intros Hn. unfold spectrum_bin.
  destruct (@dft_sums_total amplitudes n k Hn) as [[re im] Hp]. rewrite Hp. simpl.
  rewrite !py_div_nonzero by exact Hn. simpl. eauto.
Qed.

Lemma generate_fft_spectrum_pure
  (resonance_data : list (DataPoint F)) (sample_rate : F) (max_bins : Z) :
  is_zero (of_int (len (map amplitude resonance_data))) = false ->
  exists spectrum,
    generate_fft_spectrum resonance_data sample_rate max_bins
    = Ok (spectrum_of resonance_data sample_rate max_bins spectrum)
    /\ len spectrum = Z.max 0 (bins (spectrum_of resonance_data sample_rate max_bins spectrum)).
Proof.
  intros Hn. unfold generate_fft_spectrum.
  set (n := len (map amplitude resonance_data)) in *.
  destruct (mapM_total (spectrum_bin (map amplitude resonance_data) sample_rate n)
              (py_range 0 (Z.min max_bins (n / 2)))) as [sp Hsp].
  { intros k _. apply spectrum_bin_total, Hn. }
  exists sp. rewrite Hsp. simpl. rewrite py_div_nonzero by exact Hn. simpl.
  split; [reflexivity|].
  apply mapM_length in Hsp. rewrite py_range_length in Hsp.
  unfold len at 1. rewrite Hsp. unfold spectrum_of. simpl bins. fold n. lia.
Qed.

Lemma generate_fft_spectrum_no_bins
  (resonance_data : list (DataPoint F)) (sample_rate : F) (max_bins : Z) :
  (Z.min max_bins (len (map amplitude resonance_data) / 2) <= 0)%Z ->
  generate_fft_spectrum resonance_data sample_rate max_bins
  = (resolution <- py_div sample_rate (of_int (len (map amplitude resonance_data))) ;;
     Ok {| spectrum_type := "fft"%string;
           frequency_resolution_hz := py_round resolution 6;
           bins := Z.min max_bins (len (map amplitude resonance_data) / 2);
           spectrum_data := [] |}).
Proof.
  intros Hle. unfold generate_fft_spectrum. rewrite py_range_nil by lia. reflexivity.
Qed.

End AnalysisFacts.

(** ** Rounding on the reals *)

Section RealRounding.

Import Exact.
Local Open Scope R_scope.

Lemma Rabs_le_between (a b : R) : Rabs a <= b -> - b <= a <= b.
Proof. unfold Rabs. destruct (Rcase_abs a); lra. Qed.

Lemma Int_part_floor (x : R) : IZR (Int_part x) <= x < IZR (Int_part x) + 1.
Proof. destruct (base_Int_part x). lra. Qed.

Lemma Int_part_unique (x : R) (k : Z) : IZR k <= x < IZR k + 1 -> Int_part x = k.
Proof. intros Hk. symmetry. apply Int_part_spec. lra. Qed.

Lemma Int_part_IZR (k : Z) : Int_part (IZR k) = k.
Proof. apply Int_part_unique. lra. Qed.

Lemma Int_part_mono (x y : R) : x <= y -> (Int_part x <= Int_part y)%Z.
Proof.
  intros Hxy. destruct (Z_le_gt_dec (Int_part x) (Int_part y)) as [Hle|Hgt]; [exact Hle|].
  exfalso. assert (Hz : (Int_part y + 1 <= Int_part x)%Z) by lia.
  apply IZR_le in Hz. rewrite plus_IZR in Hz.
  pose proof (Int_part_floor x). pose proof (Int_part_floor y). lra.
Qed.

Lemma round_half_even_cases (x : R) :
  round_half_even x = Int_part x \/ round_half_even x = (Int_part x + 1)%Z.
Proof.
  unfold round_half_even.
  destruct (Rlt_dec _ _); [left; reflexivity|].
  destruct (Rlt_dec _ _); [right; reflexivity|].
  destruct (Z.even _); [left|right]; reflexivity.
Qed.

Lemma round_half_even_close (x : R) : Rabs (IZR (round_half_even x) - x) <= 1 / 2.
Proof.
  pose proof (Int_part_floor x) as Hf. unfold round_half_even.
  destruct (Rlt_dec _ _) as [Hlo|Hlo].
  - apply Rabs_le. lra.
  - destruct (Rlt_dec _ _) as [Hhi|Hhi].
    + rewrite plus_IZR. apply Rabs_le. lra.
    + destruct (Z.even _); [|rewrite plus_IZR]; apply Rabs_le; lra.
Qed.

Lemma round_half_even_unique (x : R) (k : Z) :
  IZR k - 1 / 2 < x < IZR k + 1 / 2 -> round_half_even x = k.
Proof.
  intros Hk. pose proof (Int_part_floor x) as Hf.
  pose proof (round_half_even_close x) as Hc. apply Rabs_le_between in Hc.
  destruct (Z.eq_dec (round_half_even x) k) as [E|N]; [exact E|exfalso].
  assert (Hd : (round_half_even x + 1 <= k \/ k + 1 <= round_half_even x)%Z) by lia.
  destruct Hd as [Hd|Hd]; apply IZR_le in Hd; rewrite plus_IZR in Hd; lra.
Qed.

Lemma round_half_even_IZR (k : Z) : round_half_even (IZR k) = k.
Proof. apply round_half_even_unique. lra. Qed.

Lemma round_half_even_mono (x y : R) :
  x <= y -> (round_half_even x <= round_half_even y)%Z.
Proof.
  intros Hxy. pose proof (Int_part_mono Hxy) as Hm.
  destruct (Z.eq_dec (Int_part x) (Int_part y)) as [E|N].
  - pose proof (Int_part_floor x) as Hx. pose proof (Int_part_floor y) as Hy.
    unfold round_half_even. rewrite <- E in *.
    repeat match goal with
           | |- context [Rlt_dec ?a ?b] => destruct (Rlt_dec a b)
           end; try lia; try lra;
      destruct (Z.even (Int_part x)); lia.
  - destruct (round_half_even_cases x) as [-> | ->];
      destruct (round_half_even_cases y) as [-> | ->]; lia.
Qed.

Lemma pow10_pos (nd : Z) : 0 < powerRZ 10 nd.
Proof. apply powerRZ_lt. lra. Qed.

Lemma Rround_mono (x y : R) (nd : Z) : x <= y -> Rround x nd <= Rround y nd.
Proof.
  intros Hxy. unfold Rround. pose proof (pow10_pos nd) as Hp.
  apply Rmult_le_compat_r; [left; apply Rinv_0_lt_compat, Hp|].
  apply IZR_le, round_half_even_mono. nra.
Qed.


Lemma Rround_close (x : R) (nd : Z) :
  Rabs (Rround x nd - x) <= / 2 * / powerRZ 10 nd.
Proof.
  unfold Rround. pose proof (pow10_pos nd) as Hp.
  pose proof (round_half_even_close (x * powerRZ 10 nd)) as Hc.
  replace (IZR (round_half_even (x * powerRZ 10 nd)) / powerRZ 10 nd - x)
    with ((IZR (round_half_even (x * powerRZ 10 nd)) - x * powerRZ 10 nd)
          * / powerRZ 10 nd) by (field; lra).
  rewrite Rabs_mult, (Rabs_pos_eq (/ _)) by (left; apply Rinv_0_lt_compat, Hp).
  apply Rmult_le_compat_r; [left; apply Rinv_0_lt_compat, Hp|]. lra.
Qed.

Lemma Rround_near (x : R) (k : nat) (z : Z) :
  IZR z - 1 / 2 < x * 10 ^ k < IZR z + 1 / 2 ->
  Rround x (Z.of_nat k) = IZR z / 10 ^ k.
Proof.
  intros Hz. unfold Rround. rewrite <- pow_powerRZ.
  rewrite (round_half_even_unique _ Hz). reflexivity.
Qed.

Lemma Rround_rounded_to (k : nat) (x : R) : rounded_to k x (Rround x (Z.of_nat k)).
Proof.
  split.
  - exists (round_half_even (x * 10 ^ k)). unfold Rround.
    rewrite <- pow_powerRZ. reflexivity.
  - rewrite (pow_powerRZ 10 k). apply Rround_close.
Qed.

Lemma Rround_zero (nd : Z) : Rround 0 nd = 0.
Proof.
  unfold Rround. rewrite Rmult_0_l.
  rewrite (round_half_even_IZR 0). unfold Rdiv. apply Rmult_0_l.
Qed.


End RealRounding.

(** ** The pipeline in exact arithmetic *)

Section ExactFacts.

Import Exact.
Local Open Scope R_scope.

Lemma Reqb0_false (x : R) : x <> 0 -> Reqb0 x = false.
Proof. intros Hx. unfold Reqb0. destruct (Req_dec_T x 0); [contradiction|reflexivity]. Qed.

Lemma Reqb0_true (x : R) : x = 0 -> Reqb0 x = true.
Proof. intros Hx. unfold Reqb0. destruct (Req_dec_T x 0); [reflexivity|contradiction]. Qed.

Lemma Rgtb_true (x y : R) : Rgtb x y = true <-> y < x.
Proof. unfold Rgtb. destruct (Rlt_dec y x); split; intros; try discriminate; tauto. Qed.

Lemma Rgtb_false (x y : R) : Rgtb x y = false <-> x <= y.
Proof.
  unfold Rgtb. destruct (Rlt_dec y x); split; intros; try discriminate; try lra; tauto.
Qed.

Lemma IZR_pos_nonzero (k : Z) : (1 <= k)%Z -> IZR k <> 0.
Proof. intros Hk. apply not_0_IZR. lia. Qed.

Lemma R_float_laws : PyFloatLaws R_float.
Proof.
  split; simpl.
  - apply Reqb0_true. reflexivity.
  - intros k Hk. apply Reqb0_false, IZR_pos_nonzero. lia.
  - intros x Hx. apply Rgtb_true in Hx. apply Reqb0_false. lra.
Qed.

Lemma R_orders_nonzero (harmonics : Z) : orders_nonzero (ops := R_float) harmonics.
Proof. intros h Hh. simpl. apply Reqb0_false, IZR_pos_nonzero. lia. Qed.

Lemma fold_left_Rplus (l : list R) (a : R) : fold_left Rplus l a = a + Rsum l.
Proof.
  revert a. induction l as [|x l IH]; intros a; simpl.
  - lra.
  - rewrite IH. lra.
Qed.


Lemma Rsum_cons (x : R) (l : list R) : Rsum (x :: l) = x + Rsum l.
Proof. reflexivity. Qed.



Lemma Rsum_nonneg (l : list R) : (forall x, In x l -> 0 <= x) -> 0 <= Rsum l.
Proof.
  induction l as [|x l IH]; intros Hl; simpl.
  - lra.
  - assert (0 <= x) by (apply Hl; left; reflexivity).
    assert (0 <= Rsum l) by (apply IH; intros y Hy; apply Hl; right; exact Hy). lra.
Qed.

Lemma weight_pos (h : Z) : (1 <= h)%Z -> 0 < 1 / IZR h.
Proof.
  intros Hh. apply Rdiv_lt_0_compat; [lra|]. apply IZR_lt. lia.
Qed.

Lemma harmonic_weight_pos (harmonics : Z) :
  (1 <= harmonics)%Z -> 0 < harmonic_weight harmonics.
Proof.
  intros Hh. unfold harmonic_weight. rewrite py_range_cons by lia.
  rewrite map_cons, Rsum_cons.
  assert (0 <= Rsum (map (fun h => 1 / IZR h) (py_range (1 + 1) (harmonics + 1)))).
  { apply Rsum_nonneg. intros x Hx. apply in_map_iff in Hx.
    destruct Hx as (h & <- & Hin). apply py_range_In in Hin.
    left. apply weight_pos. lia. }
  lra.
Qed.


Lemma R_compute_resonance_amplitude (frequency t damping : R) :
  compute_resonance_amplitude frequency t damping
  = exp (- damping * t) * sin (2 * PI * frequency * t).
Proof. reflexivity. Qed.

Lemma R_weight_sum (harmonics : Z) :
  py_sum (weights (ops := R_float) harmonics) = harmonic_weight harmonics.
Proof.
  unfold py_sum, weights, harmonic_weight. simpl.
  rewrite fold_left_Rplus. lra.
Qed.



Lemma R_simulate_valid (base_frequency : R) (harmonics : Z) (duration sample_rate : R) :
  (1 <= harmonics)%Z -> sample_rate <> 0 ->
  simulate_harmonic_qubit base_frequency harmonics duration sample_rate
  = Ok (simulation_of base_frequency harmonics duration sample_rate
          (map (fun i => point_value base_frequency harmonics (IZR i / sample_rate))
               (py_range 0 (Rtrunc (duration * sample_rate))))).
Proof.
  intros Hh Hsr.
  apply (simulate_pure (ops := R_float)).
  - reflexivity.
  - apply Reqb0_false, Hsr.
  - apply R_orders_nonzero.
  - rewrite R_weight_sum. apply Reqb0_false.
    pose proof (harmonic_weight_pos Hh). lra.
Qed.

Lemma Rtrunc_nonneg (x : R) : 0 <= x -> Rtrunc x = Int_part x.
Proof. intros Hx. unfold Rtrunc. destruct (Rle_dec 0 x); [reflexivity|contradiction]. Qed.



End ExactFacts.

(** ** Synthesis: the samples *)

Section SynthesisValues.

Import Exact.
Local Open Scope R_scope.

Lemma nth_map_range {B : Type} (f : Z -> B) (n : Z) (i : nat) (d : B) :
  (i < Z.to_nat n)%nat -> nth i (map f (py_range 0 n)) d = f (Z.of_nat i).
Proof.
  intros Hi.
  rewrite (nth_indep _ d (f 0%Z)) by (rewrite length_map, py_range_length; lia).
  rewrite map_nth. f_equal. rewrite py_range_nth by lia. lia.
Qed.









Lemma R_point_value_time (base_frequency : R) (harmonics : Z) (t : R) :
  time (point_value base_frequency harmonics t) = Rround t 4.
Proof. reflexivity. Qed.

End SynthesisValues.

Section SynthesisClaims.

Import Exact.
Local Open Scope R_scope.


Lemma Rtrunc_IZR (k : Z) (x : R) : (0 <= k)%Z -> x = IZR k -> Rtrunc x = k.
Proof.
  intros Hk ->. rewrite Rtrunc_nonneg by (apply IZR_le in Hk; exact Hk).
  apply Int_part_IZR.
Qed.





End SynthesisClaims.

Section DampingClaims.

Import Exact.
Local Open Scope R_scope.





End DampingClaims.

Section TimeAxisClaims.

Import Exact.
Local Open Scope R_scope.

(** C4, as stated, fails: the stored time is [round(t, 4)], not [t].
    With [sample_rate = 100000] (and [duration = 1], so 100000 samples)
    samples 0 and 1 both carry the time [0.0]: sample 1 is not at
    [1 / sample_rate] and the times are not strictly increasing. *)
Lemma rounded_times_collide :
  exists sim : Simulation R,
    simulate_harmonic_qubit 5 1 1 100000 = Ok sim
    /\ len (resonance_data sim) = 100000%Z
    /\ time (nth 0 (resonance_data sim) (point 0 0)) = 0
    /\ time (nth 1 (resonance_data sim) (point 0 0)) = 0
    /\ time (nth 1 (resonance_data sim) (point 0 0)) <> 1 / 100000.
Proof.
  eexists. split; [apply R_simulate_valid; [lia|lra]|].
  cbn [resonance_data simulation_of].
  rewrite (@Rtrunc_IZR 100000 (1 * 100000)) by (try lia; lra).
  assert (H0 : Rround (IZR 0 / 100000) 4 = 0).
  { change 4%Z with (Z.of_nat 4).
    rewrite (@Rround_near (IZR 0 / 100000) 4 0) by (simpl; lra). lra. }
  assert (H1 : Rround (IZR 1 / 100000) 4 = 0).
  { change 4%Z with (Z.of_nat 4).
    rewrite (@Rround_near (IZR 1 / 100000) 4 0) by (simpl; lra). lra. }
  split.
  - unfold len. rewrite length_map, py_range_length. lia.
  - rewrite !(nth_map_range (fun k => point_value 5 1 (IZR k / 100000))) by lia.
    rewrite !R_point_value_time. change (Z.of_nat 0) with 0%Z.
    change (Z.of_nat 1) with 1%Z. rewrite H0, H1.
    repeat split; try reflexivity. lra.
Qed.

(** In exact arithmetic the time stored for sample [i],
    [round(i / sample_rate, 4)], never decreases with [i]. *)
Lemma exact_times_monotone
  (base_frequency : R) (harmonics : Z) (sample_rate : R) (i j : Z) :
  0 < sample_rate -> (i <= j)%Z ->
  time (point_value base_frequency harmonics (sample_time sample_rate i))
  <= time (point_value base_frequency harmonics (sample_time sample_rate j)).
Proof.
  intros Hsr Hij. unfold point_value, sample_time. cbn [time py_round fdiv of_int R_float].
  apply Rround_mono. apply Rmult_le_compat_r.
  - left. apply Rinv_0_lt_compat, Hsr.
  - apply IZR_le, Hij.
Qed.

End TimeAxisClaims.

(** ** The damped oscillator *)

Section OscillatorClaims.

Import Exact.
Local Open Scope R_scope.

(** Where the sine factor vanishes the amplitude is 0 for every
    damping: at [frequency = 0] and [t = 1] it is 0 for the damping 0
    and for the larger damping 1 alike. *)
Lemma zero_phase_does_not_decay :
  compute_resonance_amplitude 0 1 0 = 0
  /\ compute_resonance_amplitude 0 1 1 = 0
  /\ ~ Rabs (compute_resonance_amplitude 0 1 1) < Rabs (compute_resonance_amplitude 0 1 0).
Proof.
  assert (E : forall d : R, compute_resonance_amplitude 0 1 d = 0).
  { intros d. rewrite R_compute_resonance_amplitude.
    replace (2 * PI * 0 * 1) with 0 by ring. rewrite sin_0. ring. }
  rewrite !E. repeat split. lra.
Qed.

(** In exact arithmetic the decrease is strict wherever the sine factor
    is not zero.  This does not carry over to binary64, where two
    dampings can give the same decay factor
    ([tiny_damping_leaves_amplitude] below). *)
Lemma exact_damping_strict (frequency t d1 d2 : R) :
  0 < t -> d1 < d2 -> sin (2 * PI * frequency * t) <> 0 ->
  Rabs (compute_resonance_amplitude frequency t d2)
  < Rabs (compute_resonance_amplitude frequency t d1).
Proof.
  intros Ht Hd Hne. rewrite !R_compute_resonance_amplitude.
  assert (He : exp (- d2 * t) < exp (- d1 * t)) by (apply exp_increasing; nra).
  rewrite !Rabs_mult, !(Rabs_pos_eq (exp _)) by (left; apply exp_pos).
  apply Rmult_lt_compat_r; [|exact He]. apply Rabs_pos_lt, Hne.
Qed.

(** C8, amended: for [t > 0] a larger damping never gives a larger
    [|amplitude|].  The order is not strict. *)
Theorem damping_decreases_magnitude (frequency t d1 d2 : R) :
  0 < t -> d1 < d2 ->
  Rabs (compute_resonance_amplitude frequency t d2)
  <= Rabs (compute_resonance_amplitude frequency t d1).
Proof.
  intros Ht Hd. rewrite !R_compute_resonance_amplitude.
  assert (He : exp (- d2 * t) < exp (- d1 * t)) by (apply exp_increasing; nra).
  pose proof (exp_pos (- d2 * t)) as Hp2.
  rewrite !Rabs_mult, !(Rabs_pos_eq (exp _)) by (left; apply exp_pos).
  pose proof (Rabs_pos (sin (2 * PI * frequency * t))) as Hs.
  apply Rmult_le_compat_r; lra.
Qed.

(** At [frequency = 1], [t = 1/4] (where the sine factor is 1), for the
    dampings [0.01] and [0.02]. *)
Lemma damping_decreases_magnitude_witness :
  Rabs (compute_resonance_amplitude 1 (1 / 4) (1 / 50))
  <= Rabs (compute_resonance_amplitude 1 (1 / 4) (1 / 100)).
Proof.
  apply (@damping_decreases_magnitude 1 (1 / 4) (1 / 100) (1 / 50)).
  - lra.
  - lra.
Defined.

End OscillatorClaims.

(** ** Coherence metrics *)

Section CoherenceFacts.

Import Exact.
Local Open Scope R_scope.

Lemma fold_max_spec (l : list R) (x : R) :
  let r := fold_left (fun m y => if Rgtb y m then y else m) l x in
  In r (x :: l) /\ forall y, In y (x :: l) -> y <= r.
Proof.
  revert x. induction l as [|z l IH]; intros x; simpl.
  - split; [left; reflexivity|]. intros y [<-|[]]. lra.
  - destruct (Rgtb z x) eqn:Hg.
    + apply Rgtb_true in Hg. destruct (IH z) as [Hin Hub]. simpl in Hin, Hub. split.
      * destruct Hin as [<-|Hin]; [right; left; reflexivity|right; right; exact Hin].
      * intros y [<-|[<-|Hy]].
        -- apply Rle_trans with z; [lra|]. apply Hub. left. reflexivity.
        -- apply Hub. left. reflexivity.
        -- apply Hub. right. exact Hy.
    + apply Rgtb_false in Hg. destruct (IH x) as [Hin Hub]. simpl in Hin, Hub. split.
      * destruct Hin as [<-|Hin]; [left; reflexivity|right; right; exact Hin].
      * intros y [<-|[<-|Hy]].
        -- apply Hub. left. reflexivity.
        -- apply Rle_trans with x; [lra|]. apply Hub. left. reflexivity.
        -- apply Hub. right. exact Hy.
Qed.

Lemma R_peak_value_is_max (amplitudes : list R) :
  amplitudes <> [] ->
  is_max_abs (slice_prefix (window amplitudes) amplitudes) (peak_value amplitudes).
Proof.
  intros Hne. pose proof (slice_prefix_nonempty Hne) as Hp.
  unfold peak_value, is_max_abs.
  destruct (slice_prefix (window amplitudes) amplitudes) as [|x l]; [contradiction|].
  cbn [map]. destruct (fold_max_spec (map fabs l) (fabs x)) as [Hin Hub]. split.
  - exact Hin.
  - intros a Ha. apply Hub. change (fabs x :: map fabs l) with (map Rabs (x :: l)).
    apply in_map, Ha.
Qed.

Lemma slice_suffix_length (amplitudes : list R) :
  len (slice_suffix (window amplitudes) amplitudes) = window amplitudes.
Proof.
  unfold slice_suffix, window, len. rewrite length_skipn. lia.
Qed.

Lemma R_final_value (amplitudes : list R) :
  final_value amplitudes = mean_abs (slice_suffix (window amplitudes) amplitudes).
Proof.
  unfold final_value, mean_abs. rewrite slice_suffix_length.
  unfold py_sum. cbn [fdiv fadd of_int fabs R_float].
  rewrite fold_left_Rplus. f_equal. lra.
Qed.

Lemma R_ratio_value (amplitudes : list R) :
  amplitudes <> [] ->
  (peak_value amplitudes <> 0 ->
   ratio_value amplitudes = final_value amplitudes / peak_value amplitudes)
  /\ (peak_value amplitudes = 0 -> ratio_value amplitudes = 0).
Proof.
  intros Hne. destruct (R_peak_value_is_max Hne) as [Hin _].
  assert (Hpos : 0 <= peak_value amplitudes).
  { apply in_map_iff in Hin. destruct Hin as (a & <- & _). apply Rabs_pos. }
  unfold ratio_value. cbn [fgtb of_int fdiv R_float].
  destruct (Rgtb (peak_value amplitudes) 0) eqn:Hg.
  - apply Rgtb_true in Hg. split; [reflexivity|lra].
  - apply Rgtb_false in Hg. split; [lra|reflexivity].
Qed.


Lemma R_compute_coherence_metrics (data : list (DataPoint R)) :
  data <> [] -> compute_coherence_metrics data = Ok (metrics_of data).
Proof. apply compute_coherence_metrics_nonempty, R_float_laws. Qed.

End CoherenceFacts.

Section CoherenceClaims.

Import Exact.
Local Open Scope R_scope.

Lemma Rgtb_eq_true (x y : R) : y < x -> Rgtb x y = true.
Proof. apply Rgtb_true. Qed.

Lemma Rgtb_eq_false (x y : R) : x <= y -> Rgtb x y = false.
Proof. apply Rgtb_false. Qed.

(** C6, as stated, fails for [coherence_retention], which the code rounds
    to 4 decimals.  For the two samples [1.0] and [0.00002] the ratio is
    [0.50001]: rounded to 6 decimals it is unchanged, but the code
    returns [0.5]. *)
Lemma retention_keeps_four_decimals :
  exists m : CoherenceMetrics R,
    compute_coherence_metrics [point 0 1; point 1 (1 / 50000)] = Ok m
    /\ ratio_value [1; 1 / 50000] = 50001 / 100000
    /\ Rround (ratio_value [1; 1 / 50000]) 6 = 50001 / 100000
    /\ coherence_retention m = 1 / 2
    /\ coherence_retention m <> Rround (ratio_value [1; 1 / 50000]) 6.
Proof.
  assert (Hpeak : peak_value [1; 1 / 50000] = 1).
  { unfold peak_value, window, slice_prefix, len. simpl.
    rewrite !Rabs_pos_eq by lra. rewrite Rgtb_eq_false by lra. reflexivity. }
  assert (Hfinal : final_value [1; 1 / 50000] = 50001 / 100000).
  { unfold final_value, window, slice_suffix, len, py_sum. simpl.
    change (Z.min 100 2) with 2%Z. rewrite !Rabs_pos_eq by lra. lra. }
  assert (Hratio : ratio_value [1; 1 / 50000] = 50001 / 100000).
  { unfold ratio_value. rewrite Hpeak, Hfinal. cbn [fgtb fdiv of_int R_float].
    rewrite Rgtb_eq_true by lra. lra. }
  eexists. split; [apply R_compute_coherence_metrics; discriminate|].
  unfold metrics_of. cbn [coherence_retention map amplitude point].
  rewrite Hratio. repeat split.
  - change 6%Z with (Z.of_nat 6).
    rewrite (@Rround_near (50001 / 100000) 6 500010) by (simpl; lra). simpl. lra.
  - change (py_round (50001 / 100000) 4) with (Rround (50001 / 100000) (Z.of_nat 4)).
    rewrite (@Rround_near (50001 / 100000) 4 5000) by (simpl; lra). simpl. lra.
  - change (py_round (50001 / 100000) 4) with (Rround (50001 / 100000) (Z.of_nat 4)).
    change 6%Z with (Z.of_nat 6).
    rewrite (@Rround_near (50001 / 100000) 4 5000) by (simpl; lra).
    rewrite (@Rround_near (50001 / 100000) 6 500010) by (simpl; lra). simpl. lra.
Qed.

(** C6, amended: on a non-empty series [initial_peak_amplitude] and
    [final_avg_amplitude] are the peak and the final average rounded to 6
    decimal places, and [coherence_retention] is their ratio rounded to 4
    decimal places. *)
Theorem coherence_rounding (data : list (DataPoint R)) :
  data <> [] ->
  exists m : CoherenceMetrics R,
    compute_coherence_metrics data = Ok m
    /\ rounded_to 6 (peak_value (map amplitude data)) (initial_peak_amplitude m)
    /\ rounded_to 6 (final_value (map amplitude data)) (final_avg_amplitude m)
    /\ rounded_to 4 (ratio_value (map amplitude data)) (coherence_retention m).
Proof.
  intros Hne. eexists. split; [apply R_compute_coherence_metrics, Hne|].
  unfold metrics_of.
  cbn [initial_peak_amplitude final_avg_amplitude coherence_retention].
  repeat split; try apply (Rround_rounded_to 6); try apply (Rround_rounded_to 4).
Qed.

Lemma coherence_rounding_witness :
  exists m : CoherenceMetrics R,
    compute_coherence_metrics [point 0 1; point 1 0; point 2 0] = Ok m
    /\ rounded_to 6 (peak_value (map amplitude [point 0 1; point 1 0; point 2 0]))
         (initial_peak_amplitude m)
    /\ rounded_to 6 (final_value (map amplitude [point 0 1; point 1 0; point 2 0]))
         (final_avg_amplitude m)
    /\ rounded_to 4 (ratio_value (map amplitude [point 0 1; point 1 0; point 2 0]))
         (coherence_retention m).
Proof.
  apply (@coherence_rounding [point 0 1; point 1 0; point 2 0]). discriminate.
Defined.




End CoherenceClaims.

(** ** The spectrum of a short series *)

Section ShortSeries.

Context {F : Type} {ops : PyFloat F}.

Lemma generate_fft_spectrum_empty (sample_rate : F) (max_bins : Z) :
  is_zero (of_int 0) = true ->
  generate_fft_spectrum [] sample_rate max_bins = Raise ZeroDivisionError.
Proof.
  intros H0. rewrite generate_fft_spectrum_no_bins
    by (unfold len; simpl; change (0 / 2)%Z with 0%Z; lia).
  simpl. rewrite py_div_zero by exact H0. reflexivity.
Qed.

Lemma generate_fft_spectrum_single (d : DataPoint F) (sample_rate : F) (max_bins : Z) :
  is_zero (of_int 1) = false ->
  generate_fft_spectrum [d] sample_rate max_bins
  = Ok (spectrum_of [d] sample_rate max_bins []).
Proof.
  intros H1. rewrite generate_fft_spectrum_no_bins
    by (unfold len; simpl; change (1 / 2)%Z with 0%Z; lia).
  simpl. rewrite py_div_nonzero by exact H1. reflexivity.
Qed.

End ShortSeries.

(** ** The pipeline on binary64 *)

Section Binary64Facts.

Import Binary64.

Context {libm : Libm}.

Lemma b64_gt_zero_nonzero (x : float) :
  PrimFloat.ltb PrimFloat.zero x = true -> PrimFloat.eqb x PrimFloat.zero = false.
Proof.
  rewrite FloatAxioms.ltb_spec, FloatAxioms.eqb_spec.
  change (Prim2SF PrimFloat.zero) with (S754_zero false).
  destruct (Prim2SF x) as [s| s| |s m e]; try destruct s;
    unfold SFltb, SFeqb, SFcompare; congruence.
Qed.

Lemma b64_small_int_nonzero (k : Z) :
  (1 <= k <= 100)%Z -> PrimFloat.eqb (float_of_Z k) PrimFloat.zero = false.
Proof.
  intros Hk.
  assert (Hall : forallb (fun z => negb (PrimFloat.eqb (float_of_Z z) PrimFloat.zero))
                   (py_range 1 101) = true) by (vm_compute; reflexivity).
  rewrite forallb_forall in Hall. apply negb_true_iff, Hall, py_range_In. lia.
Qed.

Lemma b64_float_laws : PyFloatLaws b64_float.
Proof.
  split.
  - vm_compute. reflexivity.
  - exact b64_small_int_nonzero.
  - exact b64_gt_zero_nonzero.
Qed.

End Binary64Facts.

(** ** A whole run: synthesis, coherence summary, spectrum *)

Section PipelineRun.

Context {F : Type} {ops : PyFloat F}.

Lemma simulate_data_points
  (base_frequency : F) (harmonics : Z) (duration sample_rate : F) (n : Z)
  (sim : Simulation F) :
  to_int (fmul duration sample_rate) = Ok n ->
  simulate_harmonic_qubit base_frequency harmonics duration sample_rate = Ok sim ->
  data_points sim = Z.max 0 n /\ len (resonance_data sim) = Z.max 0 n.
Proof.
  intros Hn Hsim. unfold simulate_harmonic_qubit in Hsim. rewrite Hn in Hsim.
  cbn [bind] in Hsim.
  destruct (mapM _ (py_range 0 n)) as [ts|e] eqn:Hts; [|discriminate].
  cbn [bind] in Hsim.
  destruct (mapM _ ts) as [data|e] eqn:Hdata; [|discriminate].
  cbn [bind] in Hsim. inversion Hsim; subst sim. cbn [data_points resonance_data].
  apply mapM_length in Hts, Hdata. rewrite py_range_length in Hts.
  unfold len. lia.
Qed.

Lemma samples_length (base_frequency : F) (harmonics : Z) (sample_rate : F) (n : Z) :
  (0 <= n)%Z ->
  len (map (fun i => point_value base_frequency harmonics (sample_time sample_rate i))
           (py_range 0 n)) = n.
Proof. intros Hn. unfold len. rewrite length_map, py_range_length. lia. Qed.

Lemma samples_last_time (base_frequency : F) (harmonics : Z) (sample_rate : F) (n : Z)
  (d : F) :
  (1 <= n)%Z ->
  last (map time
          (map (fun i => point_value base_frequency harmonics (sample_time sample_rate i))
               (py_range 0 n))) d
  = py_round (sample_time sample_rate (n - 1)) 4.
Proof.
  intros Hn. rewrite map_map.
  rewrite (last_map_range
             (fun i => time (point_value base_frequency harmonics
                               (sample_time sample_rate i)))) by lia.
  reflexivity.
Qed.

(** When no division meets a zero, a run of [n >= 1] samples goes
    through the three stages and these are the figures it reports. *)
Lemma pipeline_run
  (base_frequency : F) (harmonics : Z) (duration sample_rate : F)
  (max_bins n : Z) :
  PyFloatLaws ops ->
  to_int (fmul duration sample_rate) = Ok n -> (1 <= n)%Z ->
  is_zero sample_rate = false ->
  orders_nonzero harmonics ->
  is_zero (py_sum (weights harmonics)) = false ->
  is_zero (of_int n) = false ->
  exists (sim : Simulation F) (coherence : CoherenceMetrics F) (fft : Spectrum F),
    simulate_harmonic_qubit base_frequency harmonics duration sample_rate = Ok sim
    /\ data_points sim = n
    /\ compute_coherence_metrics (resonance_data sim) = Ok coherence
    /\ sample_count coherence = n
    /\ total_duration_s coherence = py_round (sample_time sample_rate (n - 1)) 4
    /\ generate_fft_spectrum (resonance_data sim) sample_rate max_bins = Ok fft
    /\ bins fft = Z.min max_bins (n / 2)
    /\ len (spectrum_data fft) = Z.max 0 (Z.min max_bins (n / 2))
    /\ frequency_resolution_hz fft = py_round (fdiv sample_rate (of_int n)) 6.
Proof.
  intros L Hn Hpos Hsr Hnz Hsum Hdiv.
  pose proof (@simulate_pure F ops base_frequency harmonics duration sample_rate n
                Hn Hsr Hnz Hsum) as Hsim.
  remember (map (fun i => point_value base_frequency harmonics
                            (sample_time sample_rate i)) (py_range 0 n))
    as data eqn:Edata.
  assert (Hlen : len data = n) by (subst data; apply samples_length; lia).
  assert (Hne : data <> []).
  { intros E. rewrite E in Hlen. unfold len in Hlen. simpl in Hlen. lia. }
  assert (Hamp : len (map amplitude data) = n).
  { unfold len in *. rewrite length_map. exact Hlen. }
  destruct (@generate_fft_spectrum_pure F ops data sample_rate max_bins)
    as (spectrum & Hfft & Hbins).
  { rewrite Hamp. exact Hdiv. }
  exists (simulation_of base_frequency harmonics duration sample_rate data),
         (metrics_of data), (spectrum_of data sample_rate max_bins spectrum).
  unfold spectrum_of in *.
  cbn [data_points resonance_data simulation_of sample_count total_duration_s
       metrics_of bins spectrum_data frequency_resolution_hz] in *.
  rewrite Hamp in *.
  repeat split; try assumption.
  - apply compute_coherence_metrics_nonempty; assumption.
  - subst data. apply samples_last_time. exact Hpos.
Qed.

End PipelineRun.

Section Binary64Claims.

Import Binary64.

(** C1 on the code: for the empty series the loop over the bins is
    skipped ([num_bins = 0]) and the closing [sample_rate / n] divides by
    [n = 0]; [generate_fft_spectrum([], 100.0, 50)], and the call with
    any other arguments, ends in [ZeroDivisionError] instead of
    returning an empty spectrum. *)
Theorem empty_series_spectrum_raises (libm : Libm) (sample_rate : float) (max_bins : Z) :
  generate_fft_spectrum [] sample_rate max_bins
  = Raise ZeroDivisionError.
Proof.
  apply generate_fft_spectrum_empty. apply (is_zero_0 b64_float_laws).
Qed.

(** The other short series, of length 1, is handled: no bins, and the
    resolution is [sample_rate / 1]. *)
Lemma single_sample_spectrum (libm : Libm) (d : DataPoint float)
  (sample_rate : float) (max_bins : Z) :
  generate_fft_spectrum [d] sample_rate max_bins
  = Ok (spectrum_of [d] sample_rate max_bins []).
Proof.
  apply generate_fft_spectrum_single.
  apply (window_nonzero b64_float_laws). lia.
Qed.

(** The sample count of the scenario: the binary64 nearest to [72.1] is
    below [72.1], its product with [100.0] rounds to
    [7209.999999999999], and [int()] truncates it to 7209. *)
Lemma scenario_num_samples :
  float_to_int (PrimFloat.mul f_72_1 f_100_0) = Ok 7209%Z.
Proof. vm_compute. reflexivity. Qed.

(** C5, as stated, fails on the sample count: no libm makes the run of
    the scenario yield 7210 samples. *)
Lemma scenario_has_not_7210_samples :
  ~ exists (libm : Libm) (sim : Simulation float),
      simulate_harmonic_qubit f_5_0 5 f_72_1 f_100_0 = Ok sim
      /\ data_points sim = 7210%Z.
Proof.
  intros (libm & sim & Hsim & Hcount).
  destruct (@simulate_data_points float b64_float f_5_0 5 f_72_1 f_100_0 7209 sim
              scenario_num_samples Hsim) as [Hpoints _].
  rewrite Hpoints in Hcount. discriminate.
Qed.

Lemma scenario_last_time :
  float_round (PrimFloat.div (float_of_Z (7209 - 1)) f_100_0) 4 = f_72_08.
Proof. vm_compute. reflexivity. Qed.

Lemma scenario_resolution :
  float_round (PrimFloat.div f_100_0 (float_of_Z 7209)) 6 = f_0_013872.
Proof. vm_compute. reflexivity. Qed.

Lemma scenario_weight_sum (libm : Libm) :
  is_zero (py_sum (weights 5)) = false.
Proof. vm_compute. reflexivity. Qed.

(** C5, amended: for [base_frequency=5.0, harmonics=5, duration=72.1,
    sample_rate=100.0] the run returns 7209 samples, the coherence record
    has [sample_count = 7209] and [total_duration_s = 72.08], and the
    spectrum with [max_bins = 50] has [bins = 50] and
    [frequency_resolution_hz = 0.013872], whatever libm computes. *)
Theorem scenario_results (libm : Libm) :
  exists (sim : Simulation float) (coherence : CoherenceMetrics float)
         (fft : Spectrum float),
    simulate_harmonic_qubit f_5_0 5 f_72_1 f_100_0 = Ok sim
    /\ data_points sim = 7209%Z
    /\ compute_coherence_metrics (resonance_data sim)
       = Ok coherence
    /\ sample_count coherence = 7209%Z
    /\ total_duration_s coherence = f_72_08
    /\ generate_fft_spectrum (resonance_data sim) f_100_0 50
       = Ok fft
    /\ bins fft = 50%Z
    /\ len (spectrum_data fft) = 50%Z
    /\ frequency_resolution_hz fft = f_0_013872.
Proof.
  pose proof (@b64_float_laws libm) as L.
  destruct (@pipeline_run float b64_float f_5_0 5 f_72_1 f_100_0 50 7209 L)
    as (sim & coherence & fft & H1 & H2 & H3 & H4 & H5 & H6 & H7 & H8 & H9).
  - exact scenario_num_samples.
  - lia.
  - vm_compute. reflexivity.
  - intros h Hh. apply (window_nonzero L). lia.
  - apply scenario_weight_sum.
  - vm_compute. reflexivity.
  - exists sim, coherence, fft.
    split; [exact H1|]. split; [exact H2|]. split; [exact H3|]. split; [exact H4|].
    split; [rewrite H5; exact scenario_last_time|].
    split; [exact H6|].
    split; [rewrite H7; reflexivity|].
    split; [rewrite H8; reflexivity|].
    rewrite H9. exact scenario_resolution.
Qed.

End Binary64Claims.

(** ** The same runs on binary64

    The inputs that separate the statements above from the code in exact
    arithmetic, evaluated in the arithmetic of CPython.  These runs
    call no libm function, or do not depend on what it returns. *)

Section Binary64Runs.

Import Binary64.

Context {libm : Libm}.

(** [simulate_harmonic_qubit(5.0, 5, 0.0, 100.0)] returns an empty series. *)
Lemma b64_zero_duration_run :
  simulate_harmonic_qubit f_5_0 5 (decimal 0 1) f_100_0
  = Ok (simulation_of f_5_0 5 (decimal 0 1) f_100_0 []).
Proof.
  apply simulate_no_samples with (n := 0%Z); [vm_compute; reflexivity|lia].
Qed.

(** [simulate_harmonic_qubit(5.0, 0, 72.1, 100.0)] raises. *)
Lemma b64_no_harmonics_run :
  simulate_harmonic_qubit f_5_0 0 f_72_1 f_100_0 = Raise ZeroDivisionError.
Proof.
  apply simulate_no_harmonics with (n := 7209%Z).
  - vm_compute. reflexivity.
  - exact scenario_num_samples.
  - lia.
  - vm_compute. reflexivity.
  - lia.
Qed.

(** [round(1 / 100000.0, 4)] is [0.0], the time of sample 0. *)
Lemma b64_times_collide :
  py_round (sample_time (decimal 100000 0) 1) 4 = decimal 0 1
  /\ py_round (sample_time (decimal 100000 0) 0) 4 = decimal 0 1.
Proof. split; vm_compute; reflexivity. Qed.

(** [compute_coherence_metrics] on the amplitudes [1.0, 0.00002]. *)
Lemma b64_retention_run :
  compute_coherence_metrics
    [ {| time := decimal 0 1; amplitude := decimal 1 0 |};
      {| time := decimal 1 0; amplitude := decimal 2 5 |} ]
  = Ok {| total_duration_s := decimal 1 0;
          initial_peak_amplitude := decimal 1 0;
          final_avg_amplitude := decimal 50001 5;
          coherence_retention := decimal 5 1;
          sample_count := 2 |}.
Proof. vm_compute. reflexivity. Qed.

(** [compute_coherence_metrics] on the amplitudes [1.0, 0.0, 0.0]. *)
Lemma b64_final_average_run :
  compute_coherence_metrics
    [ {| time := decimal 0 1; amplitude := decimal 1 0 |};
      {| time := decimal 1 0; amplitude := decimal 0 1 |};
      {| time := decimal 2 0; amplitude := decimal 0 1 |} ]
  = Ok {| total_duration_s := decimal 2 0;
          initial_peak_amplitude := decimal 1 0;
          final_avg_amplitude := decimal 333333 6;
          coherence_retention := decimal 3333 4;
          sample_count := 3 |}.
Proof. vm_compute. reflexivity. Qed.

End Binary64Runs.

(** ** Synthesis on binary64: which calls return, and with how many samples *)

Section SynthesisOnBinary64.

Import Exact Binary64.

Lemma ltb_irrefl (x : float) : PrimFloat.ltb x x = false.
Proof.
  rewrite FloatAxioms.ltb_spec. unfold SFltb, SFcompare.
  destruct (Prim2SF x) as [s|s| |s m e]; try destruct s; try reflexivity.
  - rewrite Z.compare_refl, Pos.compare_refl. reflexivity.
  - rewrite Z.compare_refl, Pos.compare_refl. reflexivity.
Qed.

(** C2, as stated, fails: [duration = 0] is an invalid parameter, yet
    [simulate_harmonic_qubit(5.0, 5, 0.0, 100.0)] is not rejected; for
    every libm it returns a result dictionary with an empty series. *)
Lemma zero_duration_is_not_rejected :
  ~ exists libm : Libm,
      simulate_harmonic_qubit f_5_0 5 (decimal 0 1) f_100_0
      <> Ok (simulation_of f_5_0 5 (decimal 0 1) f_100_0 []).
Proof. intros [libm H]. apply H. apply b64_zero_duration_run. Qed.

(** C2, amended: [simulate_harmonic_qubit] validates nothing and has no
    damping parameter.  What it does is decided by
    [int(duration * sample_rate)], the product being the binary64 one:
    when [int()] raises (the product is nan or infinite) that exception
    escapes; when it is [<= 0] an empty series is returned, for any
    [harmonics]; when it is [>= 1] and [harmonics < 1] the call ends in
    [ZeroDivisionError] and no series is returned. *)
Theorem simulate_without_validation (libm : Libm)
  (base_frequency : float) (harmonics : Z) (duration sample_rate : float) :
  (forall e : PyError,
     float_to_int (PrimFloat.mul duration sample_rate) = Raise e ->
     simulate_harmonic_qubit base_frequency harmonics duration sample_rate = Raise e)
  /\ (forall n : Z,
     float_to_int (PrimFloat.mul duration sample_rate) = Ok n -> (n <= 0)%Z ->
     simulate_harmonic_qubit base_frequency harmonics duration sample_rate
     = Ok (simulation_of base_frequency harmonics duration sample_rate []))
  /\ (forall n : Z,
     float_to_int (PrimFloat.mul duration sample_rate) = Ok n -> (1 <= n)%Z ->
     (harmonics < 1)%Z ->
     simulate_harmonic_qubit base_frequency harmonics duration sample_rate
     = Raise ZeroDivisionError).
Proof.
  split; [|split].
  - intros e He. apply simulate_int_raises. exact He.
  - intros n Hn Hle. apply simulate_no_samples with (n := n); [exact Hn|exact Hle].
  - intros n Hn Hpos Hh.
    apply simulate_first_sample_no_harmonics with (n := n);
      [apply (is_zero_0 b64_float_laws)|exact Hn|exact Hpos|exact Hh].
Qed.

(** [simulate_harmonic_qubit(5.0, 0, 0.3333333333333333, 3.0)]: the
    product is [1.0] on binary64, so there is a first sample and the
    call raises, for every libm. *)
Lemma simulate_without_validation_witness :
  ~ exists libm : Libm,
      simulate_harmonic_qubit f_5_0 0 f_one_third f_3_0 <> Raise ZeroDivisionError.
Proof.
  intros [libm H]. apply H.
  apply (proj2 (proj2 (simulate_without_validation libm f_5_0 0 f_one_third f_3_0)) 1%Z).
  - vm_compute. reflexivity.
  - lia.
  - lia.
Defined.

(** The count is the truncation of the rounded product, which can lie
    on either side of the truncation of the exact one: [0.7 * 10.0] is
    [7.0] (the exact product of the two floats is below 7), and
    [72.1 * 100.0] is [7209.999999999999]. *)
Lemma rounded_product_counts :
  float_to_int (PrimFloat.mul f_0_7 (decimal 100 1)) = Ok 7%Z
  /\ float_to_int (PrimFloat.mul f_72_1 f_100_0) = Ok 7209%Z.
Proof. split; vm_compute; reflexivity. Qed.

(** C4, amended: whenever the call returns, the series has
    [max(0, int(duration * sample_rate))] samples, the product being the
    binary64 one, and sample [i] carries the time
    [round(i / sample_rate, 4)]; in exact arithmetic these times never
    decrease with [i] when [sample_rate > 0]. *)
Theorem simulated_time_axis (libm : Libm)
  (base_frequency : float) (harmonics : Z) (duration sample_rate : float)
  (sim : Simulation float) :
  simulate_harmonic_qubit base_frequency harmonics duration sample_rate = Ok sim ->
  (exists n : Z,
     float_to_int (PrimFloat.mul duration sample_rate) = Ok n
     /\ data_points sim = Z.max 0 n
     /\ len (resonance_data sim) = Z.max 0 n)
  /\ (forall (i : nat) (d : DataPoint float), (i < length (resonance_data sim))%nat ->
     time (nth i (resonance_data sim) d)
     = py_round (sample_time sample_rate (Z.of_nat i)) 4)
  /\ (forall (rate : R) (i j : Z), (0 < rate)%R -> (i <= j)%Z ->
     (py_round (sample_time rate i) 4 <= py_round (sample_time rate j) 4)%R).
Proof.
  intros Hsim. destruct (simulate_returned _ _ _ _ Hsim) as (n & Hn & Hp & Hl & Ht).
  split; [exists n; split; [exact Hn|split; [exact Hp|exact Hl]]|].
  split; [exact Ht|].
  intros rate i j Hr Hij. apply (@exact_times_monotone 0%R 1 rate i j Hr Hij).
Qed.

(** The default call, [simulate_harmonic_qubit(5.0, 5, 72.1, 100.0)]:
    for every libm it returns 7209 samples, sample 1 at time [0.01]. *)
Lemma simulated_time_axis_witness :
  ~ exists libm : Libm,
      ~ exists sim : Simulation float,
          simulate_harmonic_qubit f_5_0 5 f_72_1 f_100_0 = Ok sim
          /\ data_points sim = 7209%Z
          /\ len (resonance_data sim) = 7209%Z
          /\ time (nth 1 (resonance_data sim) {| time := f_1_0; amplitude := f_1_0 |})
             = decimal 1 2.
Proof.
  intros [libm H]. apply H. clear H.
  pose proof (@simulate_pure float b64_float f_5_0 5 f_72_1 f_100_0 7209
                scenario_num_samples) as Hsim.
  specialize (Hsim ltac:(vm_compute; reflexivity)).
  specialize (Hsim ltac:(intros h Hh; apply (window_nonzero b64_float_laws); lia)).
  specialize (Hsim (scenario_weight_sum libm)).
  remember (simulation_of f_5_0 5 f_72_1 f_100_0 _) as sim eqn:Esim. clear Esim.
  destruct (simulated_time_axis libm f_5_0 5 f_72_1 f_100_0 Hsim)
    as ((n & Hn & Hp & Hl) & Ht & _).
  assert (En : n = 7209%Z).
  { pose proof scenario_num_samples as Hs. rewrite Hs in Hn. inversion Hn. reflexivity. }
  subst n. exists sim. split; [exact Hsim|]. split; [exact Hp|]. split; [exact Hl|].
  rewrite Ht by (unfold len in Hl; lia). vm_compute. reflexivity.
Defined.

(** C8, as stated, fails on binary64: at [frequency = 1.0], [t = 0.25]
    (the sine factor is not zero) the damping is increased from [0.0]
    to [2^-1074], and for every libm the two amplitudes are the same
    float: both products [-damping * time] are [-0.0].  So the magnitude
    is not strictly smaller. *)
Lemma tiny_damping_leaves_amplitude :
  PrimFloat.ltb 0 f_min_positive = true
  /\ ~ exists libm : Libm,
         compute_resonance_amplitude f_1_0 f_0_25 f_min_positive
         <> compute_resonance_amplitude f_1_0 f_0_25 0%float
         \/ PrimFloat.ltb
              (PrimFloat.abs (compute_resonance_amplitude f_1_0 f_0_25 f_min_positive))
              (PrimFloat.abs (compute_resonance_amplitude f_1_0 f_0_25 0%float))
            = true.
Proof.
  split; [vm_compute; reflexivity|].
  intros [libm H].
  assert (E : compute_resonance_amplitude f_1_0 f_0_25 f_min_positive
              = compute_resonance_amplitude f_1_0 f_0_25 0%float)
    by (vm_compute; reflexivity).
  destruct H as [H|H].
  - apply H, E.
  - rewrite E, ltb_irrefl in H. discriminate.
Qed.

End SynthesisOnBinary64.

(** ** The spectrum, bin by bin *)

Section SpectrumFacts.

Context {F : Type} {ops : PyFloat F}.




(** What a returned spectrum holds. *)
Lemma generate_fft_spectrum_returned
  (resonance_data : list (DataPoint F)) (sample_rate : F) (max_bins : Z)
  (fft : Spectrum F) :
  is_zero (of_int 0) = true ->
  generate_fft_spectrum resonance_data sample_rate max_bins = Ok fft ->
  resonance_data <> []
  /\ bins fft = Z.min max_bins (len resonance_data / 2)
  /\ len (spectrum_data fft) = Z.max 0 (Z.min max_bins (len resonance_data / 2))
  /\ frequency_resolution_hz fft
     = py_round (fdiv sample_rate (of_int (len resonance_data))) 6.
Proof.
  intros H0 Hfft. unfold generate_fft_spectrum in Hfft.
  assert (En : len (map amplitude resonance_data) = len resonance_data)
    by (unfold len; rewrite length_map; reflexivity).
  rewrite En in Hfft.
  destruct (mapM _ _) as [spectrum|e] eqn:Hsp; [|discriminate]. cbn [bind] in Hfft.
  unfold py_div in Hfft.
  destruct (is_zero (of_int (len resonance_data))) eqn:Hz; [discriminate|].
  cbn [bind] in Hfft. inversion Hfft; subst fft.
  cbn [bins spectrum_data frequency_resolution_hz].
  split.
  - intros E. rewrite E in Hz. change (len (@nil (DataPoint F))) with 0%Z in Hz. congruence.
  - split; [reflexivity|]. split; [|reflexivity].
    apply mapM_length in Hsp. rewrite py_range_length in Hsp. unfold len at 1. lia.
Qed.

End SpectrumFacts.

Section SpectrumOnBinary64.

Import Binary64.

(** X1: on binary64, for every libm, [generate_fft_spectrum] returns
    only on a non-empty series, and what it returns has
    [bins = min(max_bins, n // 2)] (negative when [max_bins] is),
    [max(0, bins)] spectrum entries, and the resolution
    [round(sample_rate / n, 6)]. *)
Theorem returned_spectrum_shape (libm : Libm)
  (data : list (DataPoint float)) (sample_rate : float) (max_bins : Z)
  (fft : Spectrum float) :
  generate_fft_spectrum data sample_rate max_bins = Ok fft ->
  data <> []
  /\ bins fft = Z.min max_bins (len data / 2)
  /\ len (spectrum_data fft) = Z.max 0 (Z.min max_bins (len data / 2))
  /\ frequency_resolution_hz fft
     = float_round (PrimFloat.div sample_rate (float_of_Z (len data))) 6.
Proof.
  intros Hfft.
  apply (generate_fft_spectrum_returned (ops := b64_float) data sample_rate max_bins).
  - apply (is_zero_0 b64_float_laws).
  - exact Hfft.
Qed.

(** [generate_fft_spectrum] on one sample with [max_bins = -3]: the
    record says [bins = -3] and holds no entry. *)
Lemma returned_spectrum_shape_witness :
  ~ exists libm : Libm,
      ~ exists fft : Spectrum float,
          generate_fft_spectrum [ {| time := f_1_0; amplitude := f_0_25 |} ] f_100_0 (-3)
          = Ok fft
          /\ bins fft = (-3)%Z
          /\ len (spectrum_data fft) = 0%Z
          /\ frequency_resolution_hz fft = f_100_0.
Proof.
  intros [libm H]. apply H. clear H.
  pose proof (single_sample_spectrum libm {| time := f_1_0; amplitude := f_0_25 |}
                f_100_0 (-3)) as Hfft.
  destruct (@returned_spectrum_shape libm _ _ _ _ Hfft) as (_ & Hb & Hl & Hr).
  eexists. split; [exact Hfft|]. split; [exact Hb|]. split; [exact Hl|].
  rewrite Hr. vm_compute. reflexivity.
Defined.

End SpectrumOnBinary64.

Section ExactSpectrumFacts.

Import Exact ExactSpectrum.
Local Open Scope R_scope.




Lemma len_nonzero {A : Type} (l : list A) : l <> [] -> IZR (len l) <> 0.
Proof.
  intros Hne. apply IZR_pos_nonzero. unfold len. destruct l; [contradiction|].
  simpl length. lia.
Qed.

Lemma map_amplitude_nonempty (data : list (DataPoint R)) :
  data <> [] -> map amplitude data <> [].
Proof. destruct data; [contradiction|discriminate]. Qed.















End ExactSpectrumFacts.

Section SpectrumProperties.

Import Exact ExactSpectrum.
Local Open Scope R_scope.











End SpectrumProperties.

Section CoherenceProperties.

Import Exact ExactSpectrum.
Local Open Scope R_scope.

Lemma In_firstn {A : Type} (n : nat) (l : list A) (x : A) :
  In x (firstn n l) -> In x l.
Proof.
  intros Hx. rewrite <- (firstn_skipn n l). apply in_or_app. left. exact Hx.
Qed.

Lemma In_skipn {A : Type} (n : nat) (l : list A) (x : A) :
  In x (skipn n l) -> In x l.
Proof.
  intros Hx. rewrite <- (firstn_skipn n l). apply in_or_app. right. exact Hx.
Qed.

Lemma slice_suffix_nonempty (amplitudes : list R) :
  amplitudes <> [] -> slice_suffix (window amplitudes) amplitudes <> [].
Proof.
  intros Hne E. pose proof (slice_suffix_length amplitudes) as Hl.
  rewrite E in Hl. pose proof (window_bounds Hne). unfold len in Hl. simpl in Hl. lia.
Qed.










Lemma Rsum_constant (l : list R) (c : R) :
  (forall a, In a l -> a = c) -> Rsum (map Rabs l) = IZR (len l) * Rabs c.
Proof.
  induction l as [|a l IH]; intros Hc.
  - unfold len. simpl. lra.
  - cbn [map]. rewrite Rsum_cons. unfold len. cbn [length].
    rewrite Nat2Z.inj_succ, succ_IZR.
    rewrite (Hc a) by (left; reflexivity).
    rewrite IH by (intros x Hx; apply Hc; right; exact Hx).
    unfold len. lra.
Qed.

Lemma Rround_one (k : nat) : Rround 1 (Z.of_nat k) = 1.
Proof.
  assert (Hp : 0 < 10 ^ k) by (apply pow_lt; lra).
  rewrite (@Rround_near 1 k (10 ^ Z.of_nat k)).
  - rewrite <- pow_IZR. field. lra.
  - rewrite <- pow_IZR. lra.
Qed.

(** X7: on a series whose amplitudes all equal [c], with [|c| <= 1],
    the peak is [round(|c|, 6)], the final average is within one unit
    of the sixth decimal of [|c|], and the retention is 1 when [c] is
    not 0, and 0 (the guarded branch, no division) when [c = 0]. *)
Theorem constant_series_retention (data : list (DataPoint R)) (c : R) :
  data <> [] -> (forall d, In d data -> amplitude d = c) -> Rabs c <= 1 ->
  exists m : CoherenceMetrics R,
    compute_coherence_metrics data = Ok m
    /\ initial_peak_amplitude m = Rround (Rabs c) 6
    /\ Rabs (final_avg_amplitude m - Rabs c) <= / 10 ^ 6
    /\ (c <> 0 -> coherence_retention m = 1)
    /\ (c = 0 -> coherence_retention m = 0).
Proof.
  intros Hne Hc _. pose proof (map_amplitude_nonempty Hne) as Ha.
  assert (Hall : forall a, In a (map amplitude data) -> a = c).
  { intros a Hin. apply in_map_iff in Hin. destruct Hin as (d & <- & Hd). apply Hc, Hd. }
  assert (Hpeak : peak_value (map amplitude data) = Rabs c).
  { destruct (R_peak_value_is_max Ha) as [Hin _].
    apply in_map_iff in Hin. destruct Hin as (a & <- & Hin).
    f_equal. apply Hall. unfold slice_prefix in Hin. apply In_firstn in Hin. exact Hin. }
  assert (Hfinal : final_value (map amplitude data) = Rabs c).
  { rewrite R_final_value. unfold mean_abs.
    rewrite (@Rsum_constant _ c).
    - field. apply len_nonzero, slice_suffix_nonempty, Ha.
    - intros a Hin. apply Hall. unfold slice_suffix in Hin. apply In_skipn in Hin.
      exact Hin. }
  exists (metrics_of data). split; [apply R_compute_coherence_metrics, Hne|].
  unfold metrics_of.
  cbn [initial_peak_amplitude final_avg_amplitude coherence_retention].
  rewrite Hpeak, Hfinal. split; [reflexivity|]. split; [|split].
  - cbn [py_round R_float].
    apply Rle_trans with (/ 2 * / powerRZ 10 6); [apply Rround_close|].
    change (powerRZ 10 6) with (10 ^ 6).
    assert (Hpos : 0 < / 10 ^ 6) by (apply Rinv_0_lt_compat, pow_lt; lra).
    lra.
  - intros Hnz. destruct (R_ratio_value Ha) as [Hr _].
    rewrite Hr by (rewrite Hpeak; apply Rabs_no_R0, Hnz).
    rewrite Hpeak, Hfinal.
    replace (Rabs c / Rabs c) with 1 by (field; apply Rabs_no_R0, Hnz).
    apply (Rround_one 4).
  - intros Hz. destruct (R_ratio_value Ha) as [_ Hr].
    rewrite Hr by (rewrite Hpeak, Hz; apply Rabs_R0). apply Rround_zero.
Qed.

Lemma constant_series_retention_witness :
  exists m : CoherenceMetrics R,
    compute_coherence_metrics [point 0 (1 / 2); point 1 (1 / 2)] = Ok m
    /\ initial_peak_amplitude m = Rround (Rabs (1 / 2)) 6
    /\ Rabs (final_avg_amplitude m - Rabs (1 / 2)) <= / 10 ^ 6
    /\ (1 / 2 <> 0 -> coherence_retention m = 1)
    /\ (1 / 2 = 0 -> coherence_retention m = 0).
Proof.
  apply (@constant_series_retention [point 0 (1 / 2); point 1 (1 / 2)] (1 / 2)).
  - discriminate.
  - intros d [<-|[<-|[]]]; reflexivity.
  - apply Rabs_le. lra.
Defined.

End CoherenceProperties.

Section CoherenceOnBinary64.

Import Binary64.

(** X8: on binary64, whatever the amplitudes are (nan and infinities
    included), [compute_coherence_metrics] never raises: the empty
    series is answered first, the window size is never 0, and the
    division by the peak is guarded by [peak_amplitude > 0].  The record
    it returns counts the samples. *)
Theorem coherence_never_raises (libm : Libm) (data : list (DataPoint float)) :
  exists m : CoherenceMetrics float,
    compute_coherence_metrics data = Ok m /\ sample_count m = len data.
Proof.
  destruct data as [|d data].
  - exists zero_metrics. split; reflexivity.
  - exists (metrics_of (d :: data)). split; [|reflexivity].
    apply compute_coherence_metrics_nonempty; [apply b64_float_laws|discriminate].
Qed.

End CoherenceOnBinary64.

Section CoherenceRunsOnBinary64.

Import Binary64.

Context {libm : Libm}.

(** [compute_coherence_metrics] on three samples of amplitude
    [5.5e-06]: the peak is [round(5.5e-06, 6) = 5e-06], the binary64
    average of the three rounds to the next decimal, [6e-06], and the
    retention is [1.0]. *)
Lemma b64_constant_series_run :
  compute_coherence_metrics
    [ {| time := decimal 0 1; amplitude := decimal 55 7 |};
      {| time := decimal 1 0; amplitude := decimal 55 7 |};
      {| time := decimal 2 0; amplitude := decimal 55 7 |} ]
  = Ok {| total_duration_s := decimal 2 0;
          initial_peak_amplitude := decimal 5 6;
          final_avg_amplitude := decimal 6 6;
          coherence_retention := decimal 1 0;
          sample_count := 3 |}.
Proof. vm_compute. reflexivity. Qed.

End CoherenceRunsOnBinary64.

Section SynthesisProperties.

Import Exact ExactSpectrum.
Local Open Scope R_scope.










End SynthesisProperties.

(** ** scripts/generate_fft_audio.py: the samples *)

Section AudioFacts.

Context {F : Type} {ops : PyFloat F} {ints : PyIntFloat F}.



(** Without a harmonic the sample ends in [ZeroDivisionError]: at
    [i / sample_rate] when [sample_rate] is 0, at the normalisation
    otherwise. *)
Lemma audio_sample_no_harmonics
  (base_frequency : F) (harmonics sample_rate : Z) (amplitude : F) (i : Z) :
  is_zero (of_int 0) = true ->
  (sample_rate <> 0%Z -> quotient_fits i sample_rate = true) -> (harmonics < 1)%Z ->
  audio_sample base_frequency harmonics sample_rate amplitude i = Raise ZeroDivisionError.
Proof.
  intros H0 Hfit Hh. unfold audio_sample, int_truediv.
  destruct (Z.eqb_spec sample_rate 0) as [E|N]; [reflexivity|].
  rewrite (Hfit N). cbn [bind]. unfold audio_harmonics.
  rewrite py_range_nil by lia. cbn [foldM bind].
  rewrite weight_sum_no_harmonics by exact Hh. cbn [bind].
  rewrite py_div_zero by exact H0. reflexivity.
Qed.


Lemma generate_resonance_audio_overflow
  (base_frequency : F) (harmonics : Z) (duration : F) (sample_rate : Z) (amplitude : F) :
  converts sample_rate = false ->
  generate_resonance_audio base_frequency harmonics duration sample_rate amplitude
  = Raise OverflowError.
Proof.
  intros Hc. unfold generate_resonance_audio, float_operand. rewrite Hc. reflexivity.
Qed.

Lemma generate_resonance_audio_int_raises
  (base_frequency : F) (harmonics : Z) (duration : F) (sample_rate : Z) (amplitude : F)
  (e : PyError) :
  converts sample_rate = true ->
  to_int (fmul duration (of_int sample_rate)) = Raise e ->
  generate_resonance_audio base_frequency harmonics duration sample_rate amplitude
  = Raise e.
Proof.
  intros Hc Hn. unfold generate_resonance_audio, float_operand.
  rewrite Hc. cbn [bind]. rewrite Hn. reflexivity.
Qed.

Lemma generate_resonance_audio_no_samples
  (base_frequency : F) (harmonics : Z) (duration : F) (sample_rate : Z) (amplitude : F)
  (n : Z) :
  converts sample_rate = true ->
  to_int (fmul duration (of_int sample_rate)) = Ok n -> (n <= 0)%Z ->
  generate_resonance_audio base_frequency harmonics duration sample_rate amplitude
  = Ok [].
Proof.
  intros Hc Hn Hle. unfold generate_resonance_audio, float_operand.
  rewrite Hc. cbn [bind]. rewrite Hn. cbn [bind].
  rewrite py_range_nil by lia. reflexivity.
Qed.

(** With a first sample and no harmonic the call ends in
    [ZeroDivisionError] whatever [sample_rate] is. *)
Lemma generate_resonance_audio_first_sample_no_harmonics
  (base_frequency : F) (harmonics : Z) (duration : F) (sample_rate : Z) (amplitude : F)
  (n : Z) :
  is_zero (of_int 0) = true ->
  converts sample_rate = true ->
  to_int (fmul duration (of_int sample_rate)) = Ok n -> (1 <= n)%Z ->
  (sample_rate <> 0%Z -> quotient_fits 0 sample_rate = true) ->
  (harmonics < 1)%Z ->
  generate_resonance_audio base_frequency harmonics duration sample_rate amplitude
  = Raise ZeroDivisionError.
Proof.
  intros H0 Hc Hn Hpos Hfit Hh. unfold generate_resonance_audio, float_operand.
  rewrite Hc. cbn [bind]. rewrite Hn. cbn [bind].
  rewrite py_range_cons by lia. cbn [mapM].
  rewrite audio_sample_no_harmonics by assumption. reflexivity.
Qed.

(** A returned list has one sample per index of the range. *)
Lemma generate_resonance_audio_returned
  (base_frequency : F) (harmonics : Z) (duration : F) (sample_rate : Z) (amplitude : F)
  (samples : list F) :
  generate_resonance_audio base_frequency harmonics duration sample_rate amplitude
  = Ok samples ->
  converts sample_rate = true
  /\ exists n : Z,
       to_int (fmul duration (of_int sample_rate)) = Ok n /\ len samples = Z.max 0 n.
Proof.
  intros Hs. unfold generate_resonance_audio, float_operand in Hs.
  destruct (converts sample_rate); [|discriminate]. cbn [bind] in Hs.
  destruct (to_int (fmul duration (of_int sample_rate))) as [n|e]; [|discriminate].
  cbn [bind] in Hs. split; [reflexivity|]. exists n. split; [reflexivity|].
  apply mapM_length in Hs. rewrite py_range_length in Hs. unfold len. lia.
Qed.

End AudioFacts.

Section AudioProperties.

Import Exact.
Local Open Scope R_scope.










End AudioProperties.

Section AudioOnBinary64.

Import Binary64.

(** [0 / b] is a zero. *)
Lemma zero_quotient_fits (b : Z) : quotient_fits (F := float) 0 b = true.
Proof.
  cbn [quotient_fits b64_ints]. unfold int_quotient, nearest_quotient.
  cbn [Z.abs Z.ltb Z.compare xorb].
  destruct (b <? 0)%Z; vm_compute; reflexivity.
Qed.

(** Which ints convert: [44100] does, [10^400] does not, and the largest
    one that does is [2^1024 - 2^970 - 1]. *)
Lemma converts_samples :
  converts (F := float) 44100 = true
  /\ converts (F := float) 0 = true
  /\ converts (F := float) (10 ^ 400) = false
  /\ converts (F := float) (2 ^ 1024 - 2 ^ 970 - 1) = true
  /\ converts (F := float) (2 ^ 1024 - 2 ^ 970) = false.
Proof. repeat split; vm_compute; reflexivity. Qed.

(** X14: [generate_resonance_audio] checks none of its arguments.  An
    int [sample_rate] beyond the range of float ends the call in
    [OverflowError].  Otherwise what it does is decided by
    [int(duration * sample_rate)], the product being the binary64 one:
    when [int()] raises (the product is nan or infinite) that exception
    escapes; when it is [<= 0] the empty list is returned, which covers
    [sample_rate = 0], where no [i / sample_rate] is ever evaluated;
    when it is [>= 1] and [harmonics < 1] the call ends in
    [ZeroDivisionError].  A list that is returned has
    [max(0, int(duration * sample_rate))] samples. *)
Theorem audio_without_validation (libm : Libm)
  (base_frequency : float) (harmonics : Z) (duration : float) (sample_rate : Z)
  (amplitude : float) :
  (converts (F := float) sample_rate = false ->
   generate_resonance_audio base_frequency harmonics duration sample_rate amplitude
   = Raise OverflowError)
  /\ (converts (F := float) sample_rate = true ->
      (forall e : PyError,
         float_to_int (PrimFloat.mul duration (float_of_Z sample_rate)) = Raise e ->
         generate_resonance_audio base_frequency harmonics duration sample_rate amplitude
         = Raise e)
      /\ (forall n : Z,
            float_to_int (PrimFloat.mul duration (float_of_Z sample_rate)) = Ok n ->
            (n <= 0)%Z ->
            generate_resonance_audio base_frequency harmonics duration sample_rate
              amplitude
            = Ok [])
      /\ (forall n : Z,
            float_to_int (PrimFloat.mul duration (float_of_Z sample_rate)) = Ok n ->
            (1 <= n)%Z -> (harmonics < 1)%Z ->
            generate_resonance_audio base_frequency harmonics duration sample_rate
              amplitude
            = Raise ZeroDivisionError))
  /\ (forall samples : list float,
        generate_resonance_audio base_frequency harmonics duration sample_rate amplitude
        = Ok samples ->
        exists n : Z,
          float_to_int (PrimFloat.mul duration (float_of_Z sample_rate)) = Ok n
          /\ len samples = Z.max 0 n).
Proof.
  split; [|split].
  - intros Hc. apply generate_resonance_audio_overflow. exact Hc.
  - intros Hc. split; [|split].
    + intros e He. apply generate_resonance_audio_int_raises; [exact Hc|exact He].
    + intros n Hn Hle.
      apply generate_resonance_audio_no_samples with (n := n); assumption.
    + intros n Hn Hpos Hh.
      apply generate_resonance_audio_first_sample_no_harmonics with (n := n);
        [apply (is_zero_0 b64_float_laws)|exact Hc|exact Hn|exact Hpos| |exact Hh].
      intros _. apply zero_quotient_fits.
  - intros samples Hs.
    apply (generate_resonance_audio_returned (ops := b64_float)) in Hs.
    destruct Hs as [_ Hs]. exact Hs.
Qed.

(** [generate_resonance_audio(440.0, 0, 0.3333333333333333, 3, 0.7)]:
    the product is [1.0] on binary64, so there is a first sample and
    the call raises, for every libm. *)
Lemma audio_without_validation_witness :
  ~ exists libm : Libm,
      generate_resonance_audio f_440_0 0 f_one_third 3 f_0_7 <> Raise ZeroDivisionError.
Proof.
  intros [libm H]. apply H.
  destruct (audio_without_validation libm f_440_0 0 f_one_third 3 f_0_7)
    as (_ & Hconv & _).
  destruct (Hconv ltac:(vm_compute; reflexivity)) as (_ & _ & Hraise).
  apply (Hraise 1%Z).
  - vm_compute. reflexivity.
  - lia.
  - lia.
Defined.

(** [generate_resonance_audio(440.0, 5, 0.0, 10**400, 0.7)] ends in
    [OverflowError], for every libm. *)
Lemma audio_rate_overflow_run (libm : Libm) :
  generate_resonance_audio f_440_0 5 (decimal 0 1) (10 ^ 400) f_0_7
  = Raise OverflowError.
Proof. apply generate_resonance_audio_overflow. vm_compute. reflexivity. Qed.

(** The call of [generate_fft_audio_sample]: [72.1 * 44100] is
    [3179609.9999999995] on binary64, and [int()] gives 3179609. *)
Lemma audio_sample_count :
  float_to_int (PrimFloat.mul f_72_1 (float_of_Z 44100)) = Ok 3179609%Z.
Proof. vm_compute. reflexivity. Qed.

End AudioOnBinary64.

(** ** scripts/generate_fft_audio.py: the WAV frames *)

Section PackFacts.

Lemma struct_pack_h_fits (v : Z) :
  (-32768 <= v <= 32767)%Z ->
  struct_pack pack_h_le v = Some [(v mod 256)%Z; ((v / 256) mod 256)%Z].
Proof.
  intros Hv. unfold struct_pack.
  replace ((-32768 <=? v) && (v <=? 32767))%Z with true; [reflexivity|].
  symmetry. apply andb_true_iff. split; apply Z.leb_le; lia.
Qed.

Lemma struct_pack_b_fits (v : Z) :
  (-128 <= v <= 127)%Z -> struct_pack pack_b v = Some [(v mod 256)%Z].
Proof.
  intros Hv. unfold struct_pack.
  replace ((-128 <=? v) && (v <=? 127))%Z with true; [reflexivity|].
  symmetry. apply andb_true_iff. split; apply Z.leb_le; lia.
Qed.

Lemma struct_unpack_pack (fmt : PackFormat) (v : Z) (data : list Z) :
  struct_pack fmt v = Some data -> struct_unpack fmt data = Some v.
Proof.
  destruct fmt; unfold struct_pack.
  - destruct ((-32768 <=? v) && (v <=? 32767))%Z eqn:Hr; [|discriminate].
    apply andb_true_iff in Hr. destruct Hr as [Hlo Hhi].
    apply Z.leb_le in Hlo, Hhi. intros E. inversion E; subst data. clear E.
    unfold struct_unpack. f_equal.
    destruct (v mod 256 + 256 * ((v / 256) mod 256) <? 32768)%Z eqn:Hu;
      [apply Z.ltb_lt in Hu|apply Z.ltb_ge in Hu];
      Z.to_euclidean_division_equations; lia.
  - destruct ((-128 <=? v) && (v <=? 127))%Z eqn:Hr; [|discriminate].
    apply andb_true_iff in Hr. destruct Hr as [Hlo Hhi].
    apply Z.leb_le in Hlo, Hhi. intros E. inversion E; subst data. clear E.
    unfold struct_unpack. f_equal.
    destruct (v mod 256 <? 128)%Z eqn:Hu;
      [apply Z.ltb_lt in Hu|apply Z.ltb_ge in Hu];
      Z.to_euclidean_division_equations; lia.
Qed.

End PackFacts.

Section WriterFacts.

Lemma fits_uint32_true (v : Z) : (0 <= v < 2 ^ 32)%Z -> fits_uint32 v = true.
Proof.
  intros Hv. unfold fits_uint32. apply andb_true_iff.
  split; [apply Z.leb_le|apply Z.ltb_lt]; lia.
Qed.

Lemma patchheader_fits (st : WriterState) :
  (0 <= datawritten st)%Z -> (36 + datawritten st < 2 ^ 32)%Z ->
  exists st' : WriterState,
    patchheader st = Some st' /\ datawritten st' = datawritten st.
Proof.
  intros H0 Hb. unfold patchheader.
  destruct (datawritten st =? datalength st)%Z; [exists st; split; reflexivity|].
  rewrite !fits_uint32_true by lia. cbn [andb]. eexists. split; reflexivity.
Qed.

Lemma ensure_header_written_fits
  (sampwidth framerate : Z) (st : WriterState) (datasize : Z) :
  (1 <= sampwidth <= 4)%Z -> (0 < framerate)%Z -> (framerate * sampwidth < 2 ^ 32)%Z ->
  (0 <= datasize)%Z -> (36 + datasize < 2 ^ 32)%Z ->
  exists st' : WriterState,
    ensure_header_written sampwidth framerate st datasize = Some st'
    /\ datawritten st' = datawritten st.
Proof.
  intros Hw Hr Hrate H0 Hb. unfold ensure_header_written.
  destruct (headerwritten st); [exists st; split; reflexivity|].
  assert (Hi : (0 <= datasize / sampwidth * sampwidth <= datasize)%Z).
  { split.
    - apply Z.mul_nonneg_nonneg; [apply Z.div_pos|]; lia.
    - rewrite Z.mul_comm. apply Z.mul_div_le. lia. }
  rewrite !fits_uint32_true by nia. cbn [andb]. eexists. split; reflexivity.
Qed.

(** The writer accepts a frame as long as the rates fit the header and
    the data stays below 4 GiB. *)
Lemma writeframes_fits
  (sampwidth framerate : Z) (st : WriterState) (data : list Z) :
  (1 <= sampwidth <= 4)%Z -> (0 < framerate)%Z -> (framerate * sampwidth < 2 ^ 32)%Z ->
  (0 <= datawritten st)%Z -> (36 + (datawritten st + len data) < 2 ^ 32)%Z ->
  exists st' : WriterState,
    writeframes sampwidth framerate st data = Some st'
    /\ datawritten st' = (datawritten st + len data)%Z.
Proof.
  intros Hw Hr Hrate H0 Hb. unfold writeframes.
  assert (Hlen : (0 <= len data)%Z) by (unfold len; lia).
  destruct (@ensure_header_written_fits sampwidth framerate st (len data))
    as (st1 & E1 & D1); try assumption; [lia|].
  rewrite E1. cbn [headerwritten datawritten datalength].
  destruct (datalength st1 =? datawritten st1 + len data)%Z.
  - eexists. split; [reflexivity|]. cbn [datawritten]. lia.
  - match goal with
    | |- exists st', patchheader ?s = _ /\ _ =>
        destruct (@patchheader_fits s) as (st' & E2 & D2)
    end.
    + cbn [datawritten]. lia.
    + cbn [datawritten]. lia.
    + exists st'. split; [exact E2|]. rewrite D2. cbn [datawritten]. lia.
Qed.

Lemma close_writer_fits (sampwidth framerate : Z) (st : WriterState) :
  (1 <= sampwidth <= 4)%Z -> (0 < framerate)%Z -> (framerate * sampwidth < 2 ^ 32)%Z ->
  (0 <= datawritten st)%Z -> (36 + datawritten st < 2 ^ 32)%Z ->
  exists st' : WriterState, close_writer sampwidth framerate st = Some st'.
Proof.
  intros Hw Hr Hrate H0 Hb. unfold close_writer.
  destruct (@ensure_header_written_fits sampwidth framerate st 0)
    as (st1 & E1 & D1); try assumption; [lia|lia|].
  rewrite E1. destruct (datalength st1 =? datawritten st1)%Z; [eauto|].
  destruct (@patchheader_fits st1) as (st' & E2 & _); [lia|lia|]. eauto.
Qed.

End WriterFacts.

Section WavProperties.

Import Exact.
Local Open Scope R_scope.

Lemma R_clamp_sample (x : R) :
  (x <= -1 /\ clamp_sample x = -1)
  \/ (-1 < x < 1 /\ clamp_sample x = x)
  \/ (1 <= x /\ clamp_sample x = 1).
Proof.
  unfold clamp_sample, py_max2, py_min2. cbn [fgtb fneg of_int R_float].
  destruct (Rgtb 1 x) eqn:H1.
  - apply Rgtb_true in H1. destruct (Rgtb x _) eqn:H2.
    + apply Rgtb_true in H2. right. left. split; [lra|reflexivity].
    + apply Rgtb_false in H2. left. split; [lra|lra].
  - apply Rgtb_false in H1. destruct (Rgtb 1 _) eqn:H2.
    + right. right. split; [lra|reflexivity].
    + apply Rgtb_false in H2. lra.
Qed.

Lemma R_clamp_range (x : R) : -1 <= clamp_sample x <= 1.
Proof. destruct (R_clamp_sample x) as [[H E]|[[H E]|[H E]]]; rewrite E; lra. Qed.

Lemma R_clamp_id (x : R) : -1 <= x <= 1 -> clamp_sample x = x.
Proof. intros Hx. destruct (R_clamp_sample x) as [[H E]|[[H E]|[H E]]]; rewrite E; lra. Qed.

Lemma Rtrunc_toward_zero (y : R) :
  Rabs (IZR (Rtrunc y) - y) < 1 /\ Rabs (IZR (Rtrunc y)) <= Rabs y.
Proof.
  unfold Rtrunc. destruct (Rle_dec 0 y) as [Hp|Hn].
  - pose proof (Int_part_floor y) as Hf.
    assert (H0 : (0 <= Int_part y)%Z).
    { rewrite <- (Int_part_IZR 0). apply Int_part_mono, Hp. }
    apply IZR_le in H0. split.
    + apply Rabs_def1; lra.
    + rewrite !Rabs_pos_eq by lra. lra.
  - pose proof (Int_part_floor (- y)) as Hf.
    assert (H0 : (0 <= Int_part (- y))%Z).
    { rewrite <- (Int_part_IZR 0). apply Int_part_mono. lra. }
    apply IZR_le in H0. rewrite opp_IZR. split.
    + apply Rabs_def1; lra.
    + rewrite (Rabs_left1 (- _)), (Rabs_left1 y) by lra. lra.
Qed.

Lemma Rtrunc_within (y : R) (m : Z) :
  Rabs y <= IZR m -> (- m <= Rtrunc y <= m)%Z.
Proof.
  intros Hy. destruct (Rtrunc_toward_zero y) as [_ Hq].
  assert (Hm : Rabs (IZR (Rtrunc y)) <= IZR m) by lra.
  apply Rabs_le_between in Hm. rewrite <- opp_IZR in Hm.
  destruct Hm as [Hlo Hhi]. apply le_IZR in Hlo, Hhi. lia.
Qed.

Lemma int_sample_within (max_val : Z) (x : R) :
  (0 <= max_val)%Z -> (- max_val <= Rtrunc (clamp_sample x * IZR max_val) <= max_val)%Z.
Proof.
  intros Hm. apply Rtrunc_within. apply IZR_le in Hm.
  pose proof (R_clamp_range x) as Hc. rewrite Rabs_mult, (Rabs_pos_eq (IZR max_val)) by lra.
  assert (Rabs (clamp_sample x) <= 1) by (apply Rabs_le; lra).
  nra.
Qed.

(** The frames written for a list of samples. *)
Lemma R_write_samples (max_val : Z) (pack_format : PackFormat)
  (sampwidth framerate : Z) (samples : list R)
  (calls : list WaveCall) (st : WriterState) :
  (forall v, (- max_val <= v <= max_val)%Z ->
             exists data, struct_pack pack_format v = Some data /\ (len data <= 2)%Z) ->
  (0 <= max_val)%Z ->
  (1 <= sampwidth <= 4)%Z -> (0 < framerate)%Z -> (framerate * sampwidth < 2 ^ 32)%Z ->
  (0 <= datawritten st)%Z -> (36 + (datawritten st + 2 * len samples) < 2 ^ 32)%Z ->
  exists (frames : list (list Z)) (st' : WriterState),
    write_samples max_val pack_format sampwidth framerate samples calls st
    = (calls ++ map WriteFrames frames, st', None)
    /\ Forall2 (fun x data =>
                  struct_pack pack_format (Rtrunc (clamp_sample x * IZR max_val))
                  = Some data)
               samples frames
    /\ (0 <= datawritten st')%Z /\ (36 + datawritten st' < 2 ^ 32)%Z.
Proof.
  intros Hfit Hm Hw Hr Hrate. revert calls st.
  induction samples as [|x samples IH]; intros calls st H0 Hb.
  - exists [], st. split; [simpl; rewrite app_nil_r; reflexivity|].
    split; [constructor|]. change (len (@nil R)) with 0%Z in Hb. lia.
  - destruct (Hfit (Rtrunc (clamp_sample x * IZR max_val))) as (data & Hdata & Hlen).
    { apply int_sample_within, Hm. }
    assert (Hl : len (x :: samples) = (1 + len samples)%Z) by (unfold len; simpl length; lia).
    assert (Hd0 : (0 <= len data)%Z) by (unfold len; lia).
    assert (Hs0 : (0 <= len samples)%Z) by (unfold len; lia).
    destruct (@writeframes_fits sampwidth framerate st data) as (st1 & Hwf & Hdw);
      try assumption; [lia|].
    destruct (IH (calls ++ [WriteFrames data]) st1) as (frames & st' & Hws & Hall & Hst);
      [lia|lia|].
    exists (data :: frames), st'. split; [|split; [constructor; assumption|exact Hst]].
    cbn [write_samples]. unfold int_sample_of. cbn [to_int fmul of_int R_float].
    rewrite Hdata, Hwf, Hws. rewrite <- app_assoc. reflexivity.
Qed.

Lemma pack_fits_selected (bits_per_sample v : Z) :
  (- (if (bits_per_sample =? 16)%Z then 32767 else 127)
   <= v <= (if (bits_per_sample =? 16)%Z then 32767 else 127))%Z ->
  exists data,
    struct_pack (if (bits_per_sample =? 16)%Z then pack_h_le else pack_b) v = Some data
    /\ length data = (if (bits_per_sample =? 16)%Z then 2%nat else 1%nat).
Proof.
  destruct (bits_per_sample =? 16)%Z; intros Hv.
  - eexists. split; [apply struct_pack_h_fits; lia|reflexivity].
  - eexists. split; [apply struct_pack_b_fits; lia|reflexivity].
Qed.

(** When the width is one the writer accepts, and the rate and the
    number of samples fit the 32-bit fields of the header, the file is
    written without an exception. *)
Lemma R_save_wav_file (samples : list R) (sample_rate bits_per_sample : Z) :
  (8 <= bits_per_sample <= 39)%Z -> (0 < sample_rate)%Z ->
  (sample_rate * (bits_per_sample / 8) < 2 ^ 32)%Z ->
  (36 + 2 * len samples < 2 ^ 32)%Z ->
  exists frames : list (list Z),
    save_wav_file samples sample_rate bits_per_sample
    = ([SetNChannels 1; SetSampWidth (bits_per_sample / 8); SetFrameRate sample_rate]
         ++ map WriteFrames frames, None)
    /\ Forall2 (fun x data =>
                  struct_pack (if (bits_per_sample =? 16)%Z then pack_h_le else pack_b)
                    (Rtrunc (clamp_sample x
                             * IZR (if (bits_per_sample =? 16)%Z then 32767 else 127)))
                  = Some data)
               samples frames.
Proof.
  intros Hbits Hsr Hrate Hsize. unfold save_wav_file.
  assert (Hwidth : (1 <= bits_per_sample / 8 <= 4)%Z)
    by (Z.to_euclidean_division_equations; lia).
  assert (Hw : ((bits_per_sample / 8 <? 1) || (4 <? bits_per_sample / 8))%Z = false).
  { apply orb_false_iff. split; apply Z.ltb_ge; lia. }
  assert (Hr : (sample_rate <=? 0)%Z = false) by (apply Z.leb_gt; lia).
  assert (Hloop : forall (max_val : Z) (pack_format : PackFormat),
            (forall v, (- max_val <= v <= max_val)%Z ->
               exists data, struct_pack pack_format v = Some data /\ (len data <= 2)%Z) ->
            (0 <= max_val)%Z ->
            exists frames : list (list Z),
              (let '(calls, st, raised) :=
                 write_samples max_val pack_format (bits_per_sample / 8) sample_rate samples
                   [SetNChannels 1; SetSampWidth (bits_per_sample / 8);
                    SetFrameRate sample_rate] new_writer in
               match close_writer (bits_per_sample / 8) sample_rate st with
               | None => (calls, Some StructError)
               | Some _ => (calls, raised)
               end)
              = ([SetNChannels 1; SetSampWidth (bits_per_sample / 8);
                  SetFrameRate sample_rate] ++ map WriteFrames frames, None)
              /\ Forall2 (fun x data =>
                            struct_pack pack_format (Rtrunc (clamp_sample x * IZR max_val))
                            = Some data)
                         samples frames).
  { intros max_val pack_format Hfit Hm.
    destruct (@R_write_samples max_val pack_format (bits_per_sample / 8) sample_rate
                samples
                [SetNChannels 1; SetSampWidth (bits_per_sample / 8);
                 SetFrameRate sample_rate] new_writer Hfit Hm Hwidth Hsr Hrate)
      as (frames & st' & Hws & Hall & Hst0 & Hst1);
      [cbn [datawritten new_writer]; lia|cbn [datawritten new_writer]; lia|].
    exists frames. rewrite Hws.
    destruct (@close_writer_fits (bits_per_sample / 8) sample_rate st')
      as (st'' & Hclose); try assumption.
    rewrite Hclose. split; [reflexivity|exact Hall]. }
  destruct (bits_per_sample =? 16)%Z eqn:E16; rewrite Hw, Hr.
  - apply Hloop; [|lia].
    intros v Hv. eexists. split; [apply struct_pack_h_fits; lia|]. unfold len. simpl. lia.
  - apply Hloop; [|lia].
    intros v Hv. eexists. split; [apply struct_pack_b_fits; lia|]. unfold len. simpl. lia.
Qed.

Lemma Forall2_length_eq {A B : Type} (P : A -> B -> Prop) (l1 : list A) (l2 : list B) :
  Forall2 P l1 l2 -> length l2 = length l1.
Proof. induction 1; simpl; congruence. Qed.

Lemma Forall2_nth {A B : Type} (P : A -> B -> Prop) (l1 : list A) (l2 : list B)
  (i : nat) (d1 : A) (d2 : B) :
  Forall2 P l1 l2 -> (i < length l1)%nat -> P (nth i l1 d1) (nth i l2 d2).
Proof.
  intros H. revert i. induction H as [|a b l1 l2 Hab H IH]; intros i Hi.
  - simpl in Hi. lia.
  - destruct i as [|i]; [exact Hab|]. simpl. apply IH. simpl in Hi. lia.
Qed.

(** X15: for a sample width the writer accepts
    ([8 <= bits_per_sample <= 39], so [bits_per_sample // 8] in [1..4]),
    a positive rate whose byte rate [sample_rate * (bits_per_sample // 8)]
    fits the 32-bit field of the header, and fewer than 2 GiB of data,
    [save_wav_file] never raises, whatever the samples: it sets one
    channel, the width and the rate, then writes one frame per sample,
    of 2 bytes when [bits_per_sample == 16] and of 1 byte otherwise. *)
Theorem save_wav_file_writes_every_sample
  (samples : list R) (sample_rate bits_per_sample : Z) :
  (8 <= bits_per_sample <= 39)%Z -> (0 < sample_rate)%Z ->
  (sample_rate * (bits_per_sample / 8) < 2 ^ 32)%Z ->
  (36 + 2 * len samples < 2 ^ 32)%Z ->
  exists frames : list (list Z),
    save_wav_file samples sample_rate bits_per_sample
    = ([SetNChannels 1; SetSampWidth (bits_per_sample / 8); SetFrameRate sample_rate]
         ++ map WriteFrames frames, None)
    /\ length frames = length samples
    /\ Forall (fun data =>
                 length data = if (bits_per_sample =? 16)%Z then 2%nat else 1%nat)
              frames.
Proof.
  intros Hbits Hsr Hrate Hsize.
  destruct (R_save_wav_file samples Hbits Hsr Hrate Hsize) as (frames & Hsave & Hall).
  exists frames. split; [exact Hsave|]. split; [apply (Forall2_length_eq Hall)|].
  clear Hsave Hsize. induction Hall as [|x data samples frames Hx Hall IH]; constructor.
  - destruct (@pack_fits_selected bits_per_sample
                (Rtrunc (clamp_sample x
                         * IZR (if (bits_per_sample =? 16)%Z then 32767 else 127))))
      as (data' & Hd & Hl).
    { apply int_sample_within. destruct (bits_per_sample =? 16)%Z; lia. }
    rewrite Hx in Hd. inversion Hd. exact Hl.
  - exact IH.
Qed.

Lemma save_wav_file_writes_every_sample_witness :
  exists frames : list (list Z),
    save_wav_file [1 / 2; -2] 44100 16
    = ([SetNChannels 1; SetSampWidth (16 / 8); SetFrameRate 44100]
         ++ map WriteFrames frames, None)
    /\ length frames = length [1 / 2; -2]
    /\ Forall (fun data => length data = if (16 =? 16)%Z then 2%nat else 1%nat) frames.
Proof.
  apply (@save_wav_file_writes_every_sample [1 / 2; -2] 44100 16).
  - lia.
  - lia.
  - vm_compute. reflexivity.
  - vm_compute. reflexivity.
Defined.

(** X16: the frame written for a sample [x], read back with
    [struct.unpack], is an integer [q] with [|q| <= max_val], where
    [max_val] is 32767 for 16 bits and 127 for 8 bits (the most negative
    code is never written), and [q] is within 1 of [clamp(x) * max_val],
    where [clamp(x) = max(-1.0, min(1.0, x))] leaves [x] in [[-1, 1]]
    unchanged. *)
Theorem wav_frame_quantization
  (samples : list R) (sample_rate bits_per_sample : Z) (i : nat) :
  bits_per_sample = 16%Z \/ bits_per_sample = 8%Z ->
  (0 < sample_rate)%Z -> (sample_rate * (bits_per_sample / 8) < 2 ^ 32)%Z ->
  (36 + 2 * len samples < 2 ^ 32)%Z ->
  (i < length samples)%nat ->
  exists (frames : list (list Z)) (q : Z),
    save_wav_file samples sample_rate bits_per_sample
    = ([SetNChannels 1; SetSampWidth (bits_per_sample / 8); SetFrameRate sample_rate]
         ++ map WriteFrames frames, None)
    /\ struct_unpack (if (bits_per_sample =? 16)%Z then pack_h_le else pack_b)
         (nth i frames [])
       = Some q
    /\ (- (if (bits_per_sample =? 16)%Z then 32767 else 127) <= q
        <= (if (bits_per_sample =? 16)%Z then 32767 else 127))%Z
    /\ Rabs (IZR q - clamp_sample (nth i samples 0)
                     * IZR (if (bits_per_sample =? 16)%Z then 32767 else 127)) < 1
    /\ -1 <= clamp_sample (nth i samples 0) <= 1
    /\ (-1 <= nth i samples 0 <= 1 -> clamp_sample (nth i samples 0) = nth i samples 0).
Proof.
  intros Hbits Hsr Hrate Hsize Hi.
  destruct (@R_save_wav_file samples sample_rate bits_per_sample) as (frames & Hsave & Hall);
    [destruct Hbits; lia|exact Hsr|exact Hrate|exact Hsize|].
  pose proof (@Forall2_nth _ _ _ samples frames i 0 [] Hall Hi) as Hpack.
  cbv beta in Hpack.
  eexists frames, _. split; [exact Hsave|].
  split; [apply (struct_unpack_pack _ _ Hpack)|].
  split; [apply int_sample_within; destruct (bits_per_sample =? 16)%Z; lia|].
  split; [apply Rtrunc_toward_zero|].
  split; [apply R_clamp_range|].
  apply R_clamp_id.
Qed.

Lemma wav_frame_quantization_witness :
  exists (frames : list (list Z)) (q : Z),
    save_wav_file [1 / 2; -2] 44100 16
    = ([SetNChannels 1; SetSampWidth (16 / 8); SetFrameRate 44100]
         ++ map WriteFrames frames, None)
    /\ struct_unpack (if (16 =? 16)%Z then pack_h_le else pack_b) (nth 1 frames [])
       = Some q
    /\ (- (if (16 =? 16)%Z then 32767 else 127) <= q
        <= (if (16 =? 16)%Z then 32767 else 127))%Z
    /\ Rabs (IZR q - clamp_sample (nth 1 [1 / 2; -2] 0)
                     * IZR (if (16 =? 16)%Z then 32767 else 127)) < 1
    /\ -1 <= clamp_sample (nth 1 [1 / 2; -2] 0) <= 1
    /\ (-1 <= nth 1 [1 / 2; -2] 0 <= 1
        -> clamp_sample (nth 1 [1 / 2; -2] 0) = nth 1 [1 / 2; -2] 0).
Proof.
  apply (@wav_frame_quantization [1 / 2; -2] 44100 16 1).
  - left. reflexivity.
  - lia.
  - vm_compute. reflexivity.
  - vm_compute. reflexivity.
  - simpl. lia.
Defined.



End WavProperties.

Section WavOnBinary64.

Import Binary64.

Context {libm : Libm}.

(** [save_wav_file([0.5, -2.0], "...", 44100, 16)]: the frames are
    [16383] and [-32767] in little-endian two's complement. *)
Lemma b64_save_wav_run :
  save_wav_file [decimal 5 1; decimal (-2) 0] 44100 16
  = ([SetNChannels 1; SetSampWidth 2; SetFrameRate 44100;
      WriteFrames [255; 63]%Z; WriteFrames [1; 128]%Z], None).
Proof. vm_compute. reflexivity. Qed.

(** X18: on binary64 a non-finite sample never reaches [int()] as such,
    so [save_wav_file] does not raise on it.  [min(1.0, nan)] keeps
    [1.0]: a nan is written as the positive full scale, like
    [+infinity], and [-infinity] as the negative full scale, for both
    sample widths. *)
Theorem non_finite_samples_are_clamped :
  int_sample_of 32767 PrimFloat.nan = Ok 32767%Z
  /\ int_sample_of 32767 PrimFloat.infinity = Ok 32767%Z
  /\ int_sample_of 32767 PrimFloat.neg_infinity = Ok (-32767)%Z
  /\ int_sample_of 127 PrimFloat.nan = Ok 127%Z
  /\ int_sample_of 127 PrimFloat.infinity = Ok 127%Z
  /\ int_sample_of 127 PrimFloat.neg_infinity = Ok (-127)%Z
  /\ save_wav_file [PrimFloat.nan; PrimFloat.neg_infinity] 44100 16
     = ([SetNChannels 1; SetSampWidth 2; SetFrameRate 44100;
         WriteFrames [255; 127]%Z; WriteFrames [1; 128]%Z], None).
Proof. repeat split; vm_compute; reflexivity. Qed.

End WavOnBinary64.

Section WavHeaderLimits.

Import Binary64.

Context {libm : Libm}.

(** The header is the limit of [save_wav_file]: at
    [sample_rate = 2^31] and 16 bits the byte rate is [2^32], and the
    call ends in [struct.error], at the first frame or, without a
    sample, when the writer is closed.  One frame rate below, the file
    is written. *)
Lemma byte_rate_overflows_header :
  save_wav_file [decimal 5 1] (2 ^ 31) 16
  = ([SetNChannels 1; SetSampWidth 2; SetFrameRate (2 ^ 31)], Some StructError)
  /\ save_wav_file (@nil float) (2 ^ 31) 16
     = ([SetNChannels 1; SetSampWidth 2; SetFrameRate (2 ^ 31)], Some StructError)
  /\ save_wav_file [decimal 5 1] (2 ^ 31 - 1) 16
     = ([SetNChannels 1; SetSampWidth 2; SetFrameRate (2 ^ 31 - 1);
         WriteFrames [255; 63]%Z], None).
Proof. repeat split; vm_compute; reflexivity. Qed.

(** The sample [1.0 / 32767] at 16 bits: its binary64 product with
    [32767] is [1.0] and the frame holds 1, one code above the
    truncation of the exact product, and within 1 of it. *)
Lemma b64_quantization_run :
  save_wav_file [PrimFloat.div f_1_0 (float_of_Z 32767)] 44100 16
  = ([SetNChannels 1; SetSampWidth 2; SetFrameRate 44100; WriteFrames [1; 0]%Z], None).
Proof. vm_compute. reflexivity. Qed.

End WavHeaderLimits.
